(** * Credit approval system: the scoring and eligibility engine

    A shallow embedding of [loans/services.py] and of the part of
    [loans/models.py] it reads, with the properties of the engine proved
    over it.

    Modelling conventions.
    - Python [int] is [Z].
    - Python [float] and the [DecimalField] columns are exact rationals
      ([Q]): the model computes with the number a float stands for, so
      binary64 rounding error, overflow, infinities and NaN are outside
      it.  Order and equality tests on them are [Qle_bool], [Qlt_bool]
      and [Qeq_bool].
    - What depends on how a float operation rounds, or on whether it
      raises, is stated over the module [Generic]: the same functions
      with the operations on floats left to a class.
    - An exception is a value of [exn]; code that can raise returns in
      the error monad [result].
    - [date.today()] is the parameter [today]; the database is the
      parameter [db], a snapshot of the two tables. *)

From Stdlib Require Import ZArith QArith Qround Qpower Lqa List Bool Lia.
From Stdlib Require Import Floats.
From Stdlib Require String.
Import String.StringSyntax.
Delimit Scope string_scope with string.
Import ListNotations.

Local Open Scope Z_scope.

(** ** Python numerics *)

Module Py.

(** The exceptions the engine can raise. *)
Inductive exn : Type :=
| ZeroDivisionError
| OverflowError
| ValueError.

(** A computation that returns a value or raises. *)
Inductive result (A : Type) : Type :=
| Ok (a : A)
| Raise (e : exn).

Arguments Ok {A} a.
Arguments Raise {A} e.

Definition bind {A B : Type} (m : result A) (k : A -> result B) : result B :=
  match m with
  | Ok a => k a
  | Raise e => Raise e
  end.

Definition Qlt_bool (a b : Q) : bool := negb (Qle_bool b a).

(** [a / b] on numbers: raises when the divisor is zero. *)
Definition truediv (a b : Q) : result Q :=
  if Qeq_bool b 0 then Raise ZeroDivisionError else Ok (a / b)%Q.

(** [b ** n] for a float [b] and an int [n]: zero to a negative power
    raises. *)
Definition pow (b : Q) (n : Z) : result Q :=
  if Qeq_bool b 0 && (n <? 0) then Raise ZeroDivisionError
  else Ok (Qpower b n).

(** [int(x)]: truncation towards zero. *)
Definition int (x : Q) : Z := Z.quot (Qnum x) (Zpos (Qden x)).

(** [round(x)] with one argument: the nearest integer, a tie going to
    the even one. *)
Definition round (x : Q) : Z :=
  let d := Zpos (Qden x) in
  let f := Qnum x / d in
  let r := Qnum x mod d in
  match 2 * r ?= d with
  | Lt => f
  | Gt => f + 1
  | Eq => if Z.even f then f else f + 1
  end.

(** [round(x, 2)]: the nearest multiple of 1/100, a tie going to the
    even one. *)
Definition round2 (x : Q) : Q := Qmake (round (x * 100)%Q) 100.

(** [sum(xs)] over numbers: a left fold from [0]. *)
Definition sum (xs : list Q) : Q := fold_left Qplus xs 0%Q.

(** [sum(xs)] over ints. *)
Definition sumZ (xs : list Z) : Z := fold_left Z.add xs 0.

End Py.

Notation "x <- m ;; k" := (Py.bind m (fun x => k))
  (at level 61, m at next level, right associativity).

(** ** The data model ([loans/models.py]) *)

(** [datetime.date], ordered by year, then month, then day. *)
Record date : Type := mkdate { year : Z; month : Z; day : Z }.

Definition date_leb (a b : date) : bool :=
  (year a <? year b)
  || ((year a =? year b)
      && ((month a <? month b)
          || ((month a =? month b) && (day a <=? day b)))).

Module Customer.
(** A row of table [customers]; [id] is the primary key. *)
Record t : Type := mk {
  id : Z;
  monthly_salary : Q;
  approved_limit : Q;
  current_debt : Q
}.
End Customer.

Module Loan.
(** A row of table [loans]; [customer_id] is the foreign key behind
    [customer.loans].  Both dates are nullable. *)
Record t : Type := mk {
  id : Z;
  customer_id : Z;
  loan_amount : Q;
  tenure : Z;
  interest_rate : Q;
  monthly_repayment : Q;
  emis_paid_on_time : Z;
  start_date : option date;
  end_date : option date
}.

(** The property [repayments_left]. *)
Definition repayments_left (l : t) : Z :=
  Z.max 0 (tenure l - emis_paid_on_time l).
End Loan.

(** A snapshot of the two tables. *)
Record Database : Type := mkdb {
  customers : list Customer.t;
  loans : list Loan.t
}.

(** [Customer.objects.get(id=customer_id)]; [None] is [DoesNotExist].
    [id] is the primary key, so at most one row matches. *)
Definition Customer_objects_get (db : Database) (customer_id : Z)
  : option Customer.t :=
  find (fun c => Customer.id c =? customer_id) (customers db).

(** [customer.loans.all()]: the rows of [loans] that point at the
    customer. *)
Definition Customer_loans (db : Database) (c : Customer.t) : list Loan.t :=
  filter (fun l => Loan.customer_id l =? Customer.id c) (loans db).

(** [qs.filter(end_date__gte=today)]: the comparison is made in SQL, where
    it is not true of a row whose [end_date] is NULL. *)
Definition filter_end_date_gte (today : date) (qs : list Loan.t)
  : list Loan.t :=
  filter (fun l => match Loan.end_date l with
                   | Some d => date_leb today d
                   | None => false
                   end) qs.

(** [qs.filter(start_date__year=y)]; a NULL [start_date] does not match. *)
Definition filter_start_date_year (y : Z) (qs : list Loan.t) : list Loan.t :=
  filter (fun l => match Loan.start_date l with
                   | Some d => year d =? y
                   | None => false
                   end) qs.

(** ** The engine ([loans/services.py]) *)

Definition calculate_approved_limit (monthly_salary : Z) : Z :=
  let raw := 36 * monthly_salary in
  let rounded := Py.round (inject_Z raw / inject_Z 100000)%Q * 100000 in
  rounded.

Definition calculate_monthly_installment
    (principal annual_rate : Q) (tenure_months : Z) : Py.result Q :=
  if Qeq_bool annual_rate 0 then
    Py.truediv principal (inject_Z tenure_months)
  else
    let monthly_rate := (annual_rate / (12 * 100))%Q in
    p1 <- Py.pow (1 + monthly_rate)%Q tenure_months ;;
    p2 <- Py.pow (1 + monthly_rate)%Q tenure_months ;;
    emi <- Py.truediv (principal * monthly_rate * p1)%Q (p2 - 1)%Q ;;
    Py.Ok (Py.round2 emi).

(** The two sums and the comparison of component 5. *)
Definition total_current_loan_amount (today : date) (ls : list Loan.t) : Q :=
  Py.sum (map Loan.loan_amount (filter_end_date_gte today ls)).

(** Component 1. *)
Definition on_time_ratio (ls : list Loan.t) : Q :=
  let total_emis := Py.sumZ (map Loan.tenure ls) in
  let total_paid_on_time := Py.sumZ (map Loan.emis_paid_on_time ls) in
  if 0 <? total_emis
  then (inject_Z total_paid_on_time / inject_Z total_emis)%Q
  else 0%Q.

Definition on_time_score (ls : list Loan.t) : Q := (on_time_ratio ls * 35)%Q.

(** Component 2. *)
Definition loan_count_score (total_loans : Z) : Z :=
  if total_loans <=? 3 then 20
  else if total_loans <=? 6 then 15
  else if total_loans <=? 10 then 10
  else 5.

(** Component 3. *)
Definition current_year_loans (today : date) (ls : list Loan.t) : Z :=
  Z.of_nat (length (filter_start_date_year (year today) ls)).

Definition activity_score (current_year_loans : Z) : Z :=
  if current_year_loans =? 0 then 20
  else if current_year_loans <=? 2 then 15
  else if current_year_loans <=? 4 then 10
  else 5.

(** Component 4. *)
Definition total_loan_volume (ls : list Loan.t) : Q :=
  Py.sum (map Loan.loan_amount ls).

Definition volume_ratio (approved_limit : Q) (ls : list Loan.t) : Q :=
  if Py.Qlt_bool 0 approved_limit
  then (total_loan_volume ls / approved_limit)%Q
  else 1%Q.

Definition volume_score (volume_ratio : Q) : Z :=
  if Qle_bool volume_ratio (1 # 2) then 25
  else if Qle_bool volume_ratio 1 then 20
  else if Qle_bool volume_ratio 2 then 10
  else 5.

(** [calculate_credit_score(customer)], as a function of the customer row
    and of [customer.loans.all()]. *)
Definition credit_score_of (today : date) (c : Customer.t) (ls : list Loan.t)
  : Z :=
  if Py.Qlt_bool (Customer.approved_limit c) (total_current_loan_amount today ls)
  then 0
  else
    let total_loans := Z.of_nat (length ls) in
    if total_loans =? 0 then 50
    else
      let total_score :=
        (on_time_score ls
         + inject_Z (loan_count_score total_loans)
         + inject_Z (activity_score (current_year_loans today ls))
         + inject_Z (volume_score (volume_ratio (Customer.approved_limit c) ls)))%Q in
      Z.min 100 (Py.int total_score).

Definition calculate_credit_score (db : Database) (today : date)
    (customer : Customer.t) : Z :=
  credit_score_of today customer (Customer_loans db customer).

(** The five-tuple [check_loan_eligibility] returns. *)
Definition decision : Type := (option Customer.t * bool * Q * Q * Q)%type.

Definition total_current_emis (db : Database) (today : date)
    (customer : Customer.t) : Q :=
  Py.sum (map Loan.monthly_repayment
            (filter_end_date_gte today (Customer_loans db customer))).

Definition check_loan_eligibility (db : Database) (today : date)
    (customer_id : Z) (loan_amount interest_rate : Q) (tenure : Z)
  : Py.result decision :=
  match Customer_objects_get db customer_id with
  | None => Py.Ok (None, false, interest_rate, interest_rate, 0%Q)
  | Some customer =>
    let monthly_salary := Customer.monthly_salary customer in
    if Py.Qlt_bool ((1 # 2) * monthly_salary)%Q
                   (total_current_emis db today customer)
    then
      monthly_installment <-
        calculate_monthly_installment loan_amount interest_rate tenure ;;
      Py.Ok (Some customer, false, interest_rate, interest_rate,
             monthly_installment)
    else
      let credit_score := calculate_credit_score db today customer in
      let '(approval, corrected_rate) :=
        if 50 <? credit_score then (true, interest_rate)
        else if (30 <? credit_score) && (credit_score <=? 50) then
          if Py.Qlt_bool 12 interest_rate then (true, interest_rate)
          else (true, 12%Q)
        else if (10 <? credit_score) && (credit_score <=? 30) then
          if Py.Qlt_bool 16 interest_rate then (true, interest_rate)
          else (true, 16%Q)
        else (false, interest_rate) in
      monthly_installment <-
        calculate_monthly_installment loan_amount corrected_rate tenure ;;
      Py.Ok (Some customer, approval, interest_rate, corrected_rate,
             monthly_installment)
  end.

(** ** The spec's reading of "current loan"

    Follows the spec's words: a loan whose end date is absent or is on
    or after today.  The engine's own selection is
    [filter_end_date_gte]. *)
Definition current_per_spec (today : date) (l : Loan.t) : bool :=
  match Loan.end_date l with
  | None => true
  | Some d => date_leb today d
  end.

(** ** The spec's reading of the approved limit

    Follows the spec's words: [v] rounded to the nearest multiple of [m],
    a tie going up. *)
Definition round_half_up_to (m v : Z) : Z := (2 * v + m) / (2 * m) * m.

(** ** The spec's amortization formula

    Follows the spec's words: with monthly rate [r = annual_rate / 1200],
    [principal * r * (1+r)^tenure / ((1+r)^tenure - 1)]. *)
Definition amortization (principal annual_rate : Q) (tenure : Z) : Q :=
  let r := (annual_rate / 1200)%Q in
  (principal * r * (1 + r) ^ tenure / ((1 + r) ^ tenure - 1))%Q.

(** ** The data model's invariants on stored rows *)

Definition Customer_wf (c : Customer.t) : Prop :=
  (0 <= Customer.approved_limit c)%Q.

Definition Loan_wf (l : Loan.t) : Prop :=
  0 <= Loan.tenure l
  /\ (0 <= Loan.loan_amount l)%Q
  /\ 0 <= Loan.emis_paid_on_time l.

(** ** Sample data used by the closed examples *)

Module Sample.

Definition today : date := mkdate 2026 11 4.

(** The customer of the scoring tests: salary 50,000, limit 1,800,000. *)
Definition john : Customer.t := Customer.mk 1 50000 1800000 0.

(** A loan as the loan-creation view stores it: no end date. *)
Definition open_ended : Loan.t :=
  Loan.mk 1 1 2000000 12 10 175000 0 (Some today) None.

(** The over-limit loan of the scoring tests: it ends in a year. *)
Definition over_limit : Loan.t :=
  Loan.mk 2 1 2000000 12 10 175000 0 (Some today)
          (Some (mkdate 2027 11 4)).

(** A closed loan, every installment paid on time. *)
Definition repaid : Loan.t :=
  Loan.mk 3 1 100000 12 10 8791 12 (Some (mkdate 2025 9 30))
          (Some (mkdate 2026 10 5)).

(** The same loan with half of its installments paid on time. *)
Definition half_repaid : Loan.t :=
  Loan.mk 3 1 100000 12 10 8791 6 (Some (mkdate 2025 9 30))
          (Some (mkdate 2026 10 5)).

(** A running loan whose installment is above half of the salary. *)
Definition heavy : Loan.t :=
  Loan.mk 4 1 500000 12 10 30000 0 (Some today)
          (Some (mkdate 2027 11 4)).

Definition db_new : Database := mkdb [john] [].
Definition db_open_ended : Database := mkdb [john] [open_ended].
Definition db_over_limit : Database := mkdb [john] [over_limit].
Definition db_repaid : Database := mkdb [john] [repaid].
Definition db_half_repaid : Database := mkdb [john] [half_repaid].
Definition db_heavy : Database := mkdb [john] [heavy].

End Sample.

(** ** The request layer ([loans/views.py])

    A view takes the database and returns the database it leaves and an
    outcome.  The request is the serializer's validated data, or [None]
    when [serializer.is_valid()] is false.  Django's ORM is not part of
    the repository: the two [create] calls are operations of a class,
    [None] standing for an insert the ORM or the database refuses, and
    [Orm_laws] is the part of their contract the proofs rely on. *)

Module LoanRequest.
(** The validated data of [CheckEligibilityRequestSerializer] and of
    [CreateLoanRequestSerializer], which declare the same four fields. *)
Record t : Type := mk {
  customer_id : Z;
  loan_amount : Q;
  interest_rate : Q;
  tenure : Z
}.
End LoanRequest.

Module Registration.
(** The validated data of [CustomerRegistrationSerializer]. *)
Record t : Type := mk {
  first_name : String.string;
  last_name : String.string;
  age : Z;
  monthly_income : Z;
  phone_number : Z
}.
End Registration.

Module NewLoan.
(** The keyword arguments of [Loan.objects.create]. *)
Record t : Type := mk {
  customer : Customer.t;
  loan_amount : Q;
  tenure : Z;
  interest_rate : Q;
  monthly_repayment : Q;
  emis_paid_on_time : Z;
  start_date : option date;
  end_date : option date
}.
End NewLoan.

Module NewCustomer.
(** The keyword arguments of [Customer.objects.create]. *)
Record t : Type := mk {
  first_name : String.string;
  last_name : String.string;
  age : Z;
  phone_number : Z;
  monthly_salary : Z;
  approved_limit : Z
}.
End NewCustomer.

Class Orm : Type := {
  Loan_objects_create : Database -> NewLoan.t -> option (Database * Loan.t);
  Customer_objects_create :
    Database -> NewCustomer.t -> option (Database * Customer.t)
}.

(** What an insert that succeeds does: it adds the one row, under a
    primary key not in use, with the integer and date columns as given
    (a decimal column is stored as the database adapts it). *)
Record Orm_laws (orm : Orm) : Prop := {
  loan_created :
    forall (db db' : Database) (f : NewLoan.t) (l : Loan.t),
      Loan_objects_create db f = Some (db', l) ->
      customers db' = customers db
      /\ loans db' = loans db ++ [l]
      /\ Loan.customer_id l = Customer.id (NewLoan.customer f)
      /\ Loan.tenure l = NewLoan.tenure f
      /\ Loan.emis_paid_on_time l = NewLoan.emis_paid_on_time f
      /\ Loan.start_date l = NewLoan.start_date f
      /\ Loan.end_date l = NewLoan.end_date f;
  customer_created :
    forall (db db' : Database) (f : NewCustomer.t) (c : Customer.t),
      Customer_objects_create db f = Some (db', c) ->
      customers db' = customers db ++ [c]
      /\ loans db' = loans db
      /\ Customer_objects_get db (Customer.id c) = None
      /\ Customer.monthly_salary c = inject_Z (NewCustomer.monthly_salary f)
      /\ Customer.approved_limit c = inject_Z (NewCustomer.approved_limit f)
}.

(** What leaves a view: a [Response(data, status)], an error response (a
    body that describes the error, with its status), or an exception
    nobody handles. *)
Inductive unhandled : Type :=
| EngineError (e : Py.exn)
| OrmError.

Inductive outcome (A : Type) : Type :=
| Response (status : Z) (data : A)
| ErrorResponse (status : Z)
| Unhandled (e : unhandled).

Arguments Response {A} status data.
Arguments ErrorResponse {A} status.
Arguments Unhandled {A} e.

Definition HTTP_200_OK : Z := 200.
Definition HTTP_201_CREATED : Z := 201.
Definition HTTP_400_BAD_REQUEST : Z := 400.
Definition HTTP_404_NOT_FOUND : Z := 404.

Module RegisterData.
Record t : Type := mk {
  customer_id : Z;
  name : String.string;
  age : Z;
  monthly_income : Q;
  approved_limit : Q;
  phone_number : Z
}.
End RegisterData.

Module EligibilityData.
Record t : Type := mk {
  customer_id : Z;
  approval : bool;
  interest_rate : Q;
  corrected_interest_rate : Q;
  tenure : Z;
  monthly_installment : Q
}.
End EligibilityData.

Module CreateLoanData.
Record t : Type := mk {
  loan_id : option Z;
  customer_id : Z;
  loan_approved : bool;
  message : String.string;
  monthly_installment : Q
}.
End CreateLoanData.

Module LoanListItem.
(** An item of [LoanListItemSerializer]: [id] is renamed [loan_id] and
    [monthly_repayment] is renamed [monthly_installment]. *)
Record t : Type := mk {
  loan_amount : Q;
  interest_rate : Q;
  repayments_left : Z;
  loan_id : Z;
  monthly_installment : Q
}.
End LoanListItem.

Definition RegisterCustomerView_post {orm : Orm}
    (db : Database) (request : option Registration.t)
  : Database * outcome RegisterData.t :=
  match request with
  | None => (db, ErrorResponse HTTP_400_BAD_REQUEST)
  | Some data =>
    let approved_limit :=
      calculate_approved_limit (Registration.monthly_income data) in
    match Customer_objects_create db
            (NewCustomer.mk (Registration.first_name data)
                            (Registration.last_name data)
                            (Registration.age data)
                            (Registration.phone_number data)
                            (Registration.monthly_income data)
                            approved_limit) with
    | None => (db, Unhandled OrmError)
    | Some (db', customer) =>
      (db',
       Response HTTP_201_CREATED
         (RegisterData.mk
            (Customer.id customer)
            (String.append (Registration.first_name data)
               (String.append " "%string (Registration.last_name data)))
            (Registration.age data)
            (inject_Z (Registration.monthly_income data))
            (inject_Z approved_limit)
            (Registration.phone_number data)))
    end
  end.

Definition CheckEligibilityView_post
    (db : Database) (today : date) (request : option LoanRequest.t)
  : outcome EligibilityData.t :=
  match request with
  | None => ErrorResponse HTTP_400_BAD_REQUEST
  | Some data =>
    match Customer_objects_get db (LoanRequest.customer_id data) with
    | None => ErrorResponse HTTP_404_NOT_FOUND
    | Some customer =>
      match check_loan_eligibility db today
              (LoanRequest.customer_id data) (LoanRequest.loan_amount data)
              (LoanRequest.interest_rate data) (LoanRequest.tenure data) with
      | Py.Raise e => Unhandled (EngineError e)
      | Py.Ok (customer_obj, approval, interest_rate, corrected_rate,
               monthly_installment) =>
        Response HTTP_200_OK
          (EligibilityData.mk (LoanRequest.customer_id data) approval
             interest_rate corrected_rate (LoanRequest.tenure data)
             monthly_installment)
      end
    end
  end.

Definition CreateLoanView_post {orm : Orm}
    (db : Database) (today : date) (request : option LoanRequest.t)
  : Database * outcome CreateLoanData.t :=
  match request with
  | None => (db, ErrorResponse HTTP_400_BAD_REQUEST)
  | Some data =>
    match Customer_objects_get db (LoanRequest.customer_id data) with
    | None => (db, ErrorResponse HTTP_404_NOT_FOUND)
    | Some customer =>
      match check_loan_eligibility db today
              (LoanRequest.customer_id data) (LoanRequest.loan_amount data)
              (LoanRequest.interest_rate data) (LoanRequest.tenure data) with
      | Py.Raise e => (db, Unhandled (EngineError e))
      | Py.Ok (customer_obj, approval, interest_rate, corrected_rate,
               monthly_installment) =>
        if negb approval then
          (db,
           Response HTTP_200_OK
             (CreateLoanData.mk None (LoanRequest.customer_id data) false
                "Loan not approved based on credit score and eligibility criteria."%string
                monthly_installment))
        else
          match Loan_objects_create db
                  (NewLoan.mk customer (LoanRequest.loan_amount data)
                              (LoanRequest.tenure data) corrected_rate
                              monthly_installment 0 (Some today) None) with
          | None => (db, Unhandled OrmError)
          | Some (db', loan) =>
            (db',
             Response HTTP_201_CREATED
               (CreateLoanData.mk (Some (Loan.id loan))
                  (LoanRequest.customer_id data) true
                  "Loan approved successfully."%string monthly_installment))
          end
      end
    end
  end.

Definition LoanListItemSerializer (instance : Loan.t) : LoanListItem.t :=
  LoanListItem.mk (Loan.loan_amount instance) (Loan.interest_rate instance)
                  (Loan.repayments_left instance) (Loan.id instance)
                  (Loan.monthly_repayment instance).

Definition ViewLoansByCustomerView_get (db : Database) (customer_id : Z)
  : outcome (list LoanListItem.t) :=
  match Customer_objects_get db customer_id with
  | None => ErrorResponse HTTP_404_NOT_FOUND
  | Some customer =>
    Response HTTP_200_OK (map LoanListItemSerializer (Customer_loans db customer))
  end.

(** The loan rows point at stored customers (the foreign key). *)
Definition foreign_keys_hold (db : Database) : Prop :=
  forall l, In l (loans db) ->
            exists c, In c (customers db) /\ Customer.id c = Loan.customer_id l.

(** An ORM for the closed examples: it stores every value as given,
    under the next key after the largest in use. *)
Definition next_id (ids : list Z) : Z := fold_right Z.max 0 ids + 1.

#[local] Instance exact_orm : Orm := {
  Loan_objects_create db f :=
    let l := Loan.mk (next_id (map Loan.id (loans db)))
                     (Customer.id (NewLoan.customer f))
                     (NewLoan.loan_amount f) (NewLoan.tenure f)
                     (NewLoan.interest_rate f) (NewLoan.monthly_repayment f)
                     (NewLoan.emis_paid_on_time f)
                     (NewLoan.start_date f) (NewLoan.end_date f) in
    Some (mkdb (customers db) (loans db ++ [l]), l);
  Customer_objects_create db f :=
    let c := Customer.mk (next_id (map Customer.id (customers db)))
                         (inject_Z (NewCustomer.monthly_salary f))
                         (inject_Z (NewCustomer.approved_limit f)) 0 in
    Some (mkdb (customers db ++ [c]) (loans db), c)
}.

(** ** More sample data *)

Module MoreSamples.

(** A closed loan of customer 1, every installment paid on time. *)
Definition repaid_as (loan_id : Z) : Loan.t :=
  Loan.mk loan_id 1 100000 12 10 8791 12 (Some (mkdate 2025 9 30))
          (Some (mkdate 2026 10 5)).

Definition db_four_repaid : Database :=
  mkdb [Sample.john] [repaid_as 3; repaid_as 5; repaid_as 6; repaid_as 7].

(** The request of the loan-creation test, for customer 1. *)
Definition request : LoanRequest.t := LoanRequest.mk 1 200000 15 24.

(** The registration of the registration test. *)
Definition alice : Registration.t :=
  Registration.mk "Alice"%string "Wonder"%string 28 60000 1234567890.

(** A customer whose two running loans cost half of the salary
    exactly: 12,500.10 + 12,500.20 = 50,000.60 / 2. *)
Definition tied : Customer.t := Customer.mk 3 (5000060 # 100) 1800000 0.

Definition tied_a : Loan.t :=
  Loan.mk 8 3 100000 12 10 (1250010 # 100) 0 (Some Sample.today)
          (Some (mkdate 2027 11 4)).

Definition tied_b : Loan.t :=
  Loan.mk 9 3 100000 12 10 (1250020 # 100) 0 (Some Sample.today)
          (Some (mkdate 2027 11 4)).

Definition db_tied : Database := mkdb [tied] [tied_a; tied_b].

(** A customer whose two running loans add up to the approved limit
    exactly: 100,000.10 + 200,000.20 = 300,000.30. *)
Definition at_limit : Customer.t :=
  Customer.mk 4 50000 (30000030 # 100) 0.

Definition at_limit_a : Loan.t :=
  Loan.mk 10 4 (10000010 # 100) 12 10 8791 12 (Some Sample.today)
          (Some (mkdate 2027 11 4)).

Definition at_limit_b : Loan.t :=
  Loan.mk 11 4 (20000020 # 100) 12 10 17583 12 (Some Sample.today)
          (Some (mkdate 2027 11 4)).

Definition db_at_limit : Database :=
  mkdb [at_limit] [at_limit_a; at_limit_b].

(** A customer with no loan whose approved limit is negative. *)
Definition overdrawn : Customer.t := Customer.mk 2 50000 (-100000) 0.

Definition db_overdrawn : Database := mkdb [overdrawn] [].

End MoreSamples.

(** ** Loan lists that differ in the paid counts alone *)

(** Two rows that agree on every column but [emis_paid_on_time]. *)
Definition same_but_paid (l1 l2 : Loan.t) : Prop :=
  Loan.id l1 = Loan.id l2
  /\ Loan.customer_id l1 = Loan.customer_id l2
  /\ Loan.loan_amount l1 = Loan.loan_amount l2
  /\ Loan.tenure l1 = Loan.tenure l2
  /\ Loan.interest_rate l1 = Loan.interest_rate l2
  /\ Loan.monthly_repayment l1 = Loan.monthly_repayment l2
  /\ Loan.start_date l1 = Loan.start_date l2
  /\ Loan.end_date l1 = Loan.end_date l2.

(** ** The engine over the arithmetic of floats

    The definitions above compute with the number a float stands for.
    The ones of this module are the same functions of [loans/services.py]
    with every operation on a float left to two classes, so that what is
    proved of them holds whatever the sums, products, quotients and
    powers round to and whichever of them raise.  [Arith] has the
    operations of IEEE 754, the conversions of literals and decimals and
    the sum of a list, which Python computes by additions from the left
    or, from version 3.12 on, with a compensation of the rounding errors;
    [Library] has the conversions of ints of any size, the power, the
    truncation and the rounding to two decimals.  [ArithLaws] lists the
    facts about the operations that the theorems use; each of them holds
    of binary64 as Python computes with it.  [ExactArith] and
    [ExactLibrary] read the operations on exact rationals, [Binary64]
    reads those of [Arith] on the primitive floats. *)

Module Generic.

Class Arith : Type := {
  float : Type;
  (** The float of a small int: a numeric literal of the source or an
      int operand of an operation on floats. *)
  lit : Z -> float;
  (** The literal [0.5]. *)
  half : float;
  (** [float(d)] of a [Decimal] column. *)
  of_decimal : Q -> float;
  fadd : float -> float -> float;
  fsub : float -> float -> float;
  fmul : float -> float -> float;
  (** The quotient by a divisor that is not zero. *)
  fdiv : float -> float -> float;
  (** [x == y], [x < y] and [x <= y]. *)
  feqb : float -> float -> bool;
  fltb : float -> float -> bool;
  fleb : float -> float -> bool;
  (** [sum(xs)] over floats. *)
  fsum : list float -> float
}.

Class Library (A : Arith) : Type := {
  (** The conversion of an int operand of any size; it raises past the
      largest float. *)
  float_of_int : Z -> Py.result float;
  (** [p / e] on two ints. *)
  int_truediv : Z -> Z -> Py.result float;
  (** [x ** n] for an int [n]. *)
  fpow : float -> Z -> Py.result float;
  (** [int(x)]; it raises on an infinity and on NaN. *)
  ftrunc : float -> Py.result Z;
  (** [round(x, 2)]. *)
  fround2 : float -> float
}.

(** What the theorems use of the operations. *)
Record ArithLaws (A : Arith) (L : Library A) : Prop := {
  (** The sum of no float is [0]. *)
  fsum_nil : fsum [] = lit 0;
  (** [x ** 0] is [1.0]. *)
  fpow_0 : forall x : float, fpow x 0 = Py.Ok (lit 1);
  (** [1.0 - 1.0 == 0]. *)
  one_minus_one : feqb (fsub (lit 1) (lit 1)) (lit 0) = true;
  (** The int [0] converts to a zero, no other int does. *)
  float_of_int_0 :
    exists t : float, float_of_int 0 = Py.Ok t /\ feqb t (lit 0) = true;
  float_of_int_nonzero :
    forall (n : Z) (t : float),
      n <> 0 -> float_of_int n = Py.Ok t -> feqb t (lit 0) = false;
  (** Ints up to [2 ** 53] compare as their floats do. *)
  lit_ltb :
    forall a b : Z,
      Z.abs a <= 2 ^ 53 -> Z.abs b <= 2 ^ 53 ->
      fltb (lit a) (lit b) = (a <? b);
  (** The float of a non-negative decimal is not below zero. *)
  of_decimal_nonneg :
    forall q : Q, (0 <= q)%Q -> fltb (of_decimal q) (lit 0) = false;
  (** The quotient of a non-negative int by a positive one is not below
      zero. *)
  int_truediv_nonneg :
    forall (p e : Z) (r : float),
      0 <= p -> 0 < e -> int_truediv p e = Py.Ok r -> fleb (lit 0) r = true;
  (** Multiplying by a positive int and adding a non-negative one keep
      a lower bound; so does truncation. *)
  fmul_nonneg :
    forall (x : float) (k : Z),
      1 <= k <= 2 ^ 53 ->
      fleb (lit 0) x = true -> fleb (lit 0) (fmul x (lit k)) = true;
  fadd_lit_le :
    forall (x : float) (a b : Z),
      0 <= a -> 0 <= b -> a + b <= 2 ^ 53 ->
      fleb (lit a) x = true -> fleb (lit (a + b)) (fadd x (lit b)) = true;
  ftrunc_le :
    forall (x : float) (a z : Z),
      0 <= a <= 2 ^ 53 ->
      fleb (lit a) x = true -> ftrunc x = Py.Ok z -> a <= z
}.

Section Engine.

Context {A : Arith} {L : Library A}.

(** [a / b] on floats: raises when the divisor is zero. *)
Definition truediv (a b : float) : Py.result float :=
  if feqb b (lit 0) then Py.Raise Py.ZeroDivisionError else Py.Ok (fdiv a b).

(** The divisor [12 * 100] is not zero, so the quotient that gives
    [monthly_rate] cannot raise. *)
Definition calculate_monthly_installment
    (principal annual_rate : float) (tenure_months : Z) : Py.result float :=
  if feqb annual_rate (lit 0) then
    t <- float_of_int tenure_months ;;
    truediv principal t
  else
    let monthly_rate := fdiv annual_rate (lit (12 * 100)) in
    p1 <- fpow (fadd (lit 1) monthly_rate) tenure_months ;;
    p2 <- fpow (fadd (lit 1) monthly_rate) tenure_months ;;
    emi <- truediv (fmul (fmul principal monthly_rate) p1) (fsub p2 (lit 1)) ;;
    Py.Ok (fround2 emi).

(** The two sums and the comparison of component 5. *)
Definition total_current_loan_amount (today : date) (ls : list Loan.t)
  : float :=
  fsum (map (fun l => of_decimal (Loan.loan_amount l))
            (filter_end_date_gte today ls)).

Definition over_limit (today : date) (c : Customer.t) (ls : list Loan.t)
  : bool :=
  fltb (of_decimal (Customer.approved_limit c))
       (total_current_loan_amount today ls).

(** A Python number: [on_time_ratio] is the int [0] when no tenure is
    recorded and a float otherwise, and so is the total. *)
Inductive number : Type :=
| Int (z : Z)
| Float (x : float).

(** [x + n] for an int [n]. *)
Definition add_int (x : number) (n : Z) : number :=
  match x with
  | Int z => Int (z + n)
  | Float y => Float (fadd y (lit n))
  end.

(** [int(x)]. *)
Definition int_of (x : number) : Py.result Z :=
  match x with
  | Int z => Py.Ok z
  | Float y => ftrunc y
  end.

(** Component 1. *)
Definition on_time_score (ls : list Loan.t) : Py.result number :=
  let total_emis := Py.sumZ (map Loan.tenure ls) in
  let total_paid_on_time := Py.sumZ (map Loan.emis_paid_on_time ls) in
  if 0 <? total_emis then
    on_time_ratio <- int_truediv total_paid_on_time total_emis ;;
    Py.Ok (Float (fmul on_time_ratio (lit 35)))
  else Py.Ok (Int (0 * 35)).

(** Component 4. *)
Definition volume_score (c : Customer.t) (ls : list Loan.t) : Py.result Z :=
  let total_loan_volume :=
    fsum (map (fun l => of_decimal (Loan.loan_amount l)) ls) in
  let approved_limit := of_decimal (Customer.approved_limit c) in
  volume_ratio <-
    (if fltb (lit 0) approved_limit
     then truediv total_loan_volume approved_limit
     else Py.Ok (lit 1)) ;;
  Py.Ok (if fleb volume_ratio half then 25
         else if fleb volume_ratio (lit 1) then 20
         else if fleb volume_ratio (lit 2) then 10
         else 5).

(** The sum of the four components, in the order the source computes
    them. *)
Definition total_score (today : date) (c : Customer.t) (ls : list Loan.t)
  : Py.result number :=
  on_time <- on_time_score ls ;;
  volume <- volume_score c ls ;;
  Py.Ok (add_int
           (add_int
              (add_int on_time (loan_count_score (Z.of_nat (length ls))))
              (activity_score (current_year_loans today ls)))
           volume).

Definition credit_score_of (today : date) (c : Customer.t) (ls : list Loan.t)
  : Py.result Z :=
  if over_limit today c ls then Py.Ok 0
  else
    let total_loans := Z.of_nat (length ls) in
    if total_loans =? 0 then Py.Ok 50
    else
      total <- total_score today c ls ;;
      z <- int_of total ;;
      Py.Ok (Z.min 100 z).

Definition calculate_credit_score (db : Database) (today : date)
    (customer : Customer.t) : Py.result Z :=
  credit_score_of today customer (Customer_loans db customer).

(** The five-tuple [check_loan_eligibility] returns. *)
Definition decision : Type :=
  (option Customer.t * bool * float * float * float)%type.

Definition total_current_emis (db : Database) (today : date)
    (customer : Customer.t) : float :=
  fsum (map (fun l => of_decimal (Loan.monthly_repayment l))
            (filter_end_date_gte today (Customer_loans db customer))).

(** The test of the burden check. *)
Definition over_burdened (db : Database) (today : date)
    (customer : Customer.t) : bool :=
  fltb (fmul half (of_decimal (Customer.monthly_salary customer)))
       (total_current_emis db today customer).

(** The tier cascade on a computed score. *)
Definition tier (credit_score : Z) (interest_rate : float) : bool * float :=
  if 50 <? credit_score then (true, interest_rate)
  else if (30 <? credit_score) && (credit_score <=? 50) then
    if fltb (lit 12) interest_rate then (true, interest_rate)
    else (true, lit 12)
  else if (10 <? credit_score) && (credit_score <=? 30) then
    if fltb (lit 16) interest_rate then (true, interest_rate)
    else (true, lit 16)
  else (false, interest_rate).

Definition check_loan_eligibility (db : Database) (today : date)
    (customer_id : Z) (loan_amount interest_rate : float) (tenure : Z)
  : Py.result decision :=
  match Customer_objects_get db customer_id with
  | None => Py.Ok (None, false, interest_rate, interest_rate, lit 0)
  | Some customer =>
    if over_burdened db today customer then
      monthly_installment <-
        calculate_monthly_installment loan_amount interest_rate tenure ;;
      Py.Ok (Some customer, false, interest_rate, interest_rate,
             monthly_installment)
    else
      credit_score <- calculate_credit_score db today customer ;;
      let '(approval, corrected_rate) := tier credit_score interest_rate in
      monthly_installment <-
        calculate_monthly_installment loan_amount corrected_rate tenure ;;
      Py.Ok (Some customer, approval, interest_rate, corrected_rate,
             monthly_installment)
  end.

End Engine.

(** The operations on exact rationals. *)
Definition ExactArith : Arith := {|
  float := Q;
  lit := inject_Z;
  half := 1 # 2;
  of_decimal := fun q => q;
  fadd := Qplus;
  fsub := Qminus;
  fmul := Qmult;
  fdiv := Qdiv;
  feqb := Qeq_bool;
  fltb := Py.Qlt_bool;
  fleb := Qle_bool;
  fsum := Py.sum
|}.

Definition ExactLibrary : Library ExactArith := {|
  float_of_int := fun n => Py.Ok (inject_Z n : @float ExactArith);
  int_truediv := fun p e =>
    if e =? 0 then Py.Raise Py.ZeroDivisionError
    else Py.Ok ((inject_Z p / inject_Z e)%Q : @float ExactArith);
  fpow := Py.pow : @float ExactArith -> Z -> Py.result (@float ExactArith);
  ftrunc := fun x : @float ExactArith => Py.Ok (Py.int x);
  fround2 := Py.round2 : @float ExactArith -> @float ExactArith
|}.

(** The float nearest to an int, the way Python converts one; an
    infinity past the largest float. *)
Definition float_of_Z (z : Z) : PrimFloat.float :=
  SF2Prim (binary_normalize prec emax z 0 false).

(** The operations of [Arith] on binary64.  A decimal column holds at
    most 15 digits, so its numerator and its denominator are floats
    exactly and their quotient, rounded once, is the float nearest to
    the decimal, which is what [float(d)] returns.  The sum adds from
    the left. *)
Definition Binary64 : Arith := {|
  float := PrimFloat.float;
  lit := float_of_Z;
  half := 0.5%float;
  of_decimal := fun q =>
    PrimFloat.div (float_of_Z (Qnum q)) (float_of_Z (Zpos (Qden q)));
  fadd := PrimFloat.add;
  fsub := PrimFloat.sub;
  fmul := PrimFloat.mul;
  fdiv := PrimFloat.div;
  feqb := PrimFloat.eqb;
  fltb := PrimFloat.ltb;
  fleb := PrimFloat.leb;
  fsum := fun xs => fold_left PrimFloat.add xs (float_of_Z 0)
|}.

End Generic.

(** ** Order tests on rationals *)

Lemma Qlt_bool_iff (a b : Q) : Py.Qlt_bool a b = true <-> (a < b)%Q.
Proof.
  unfold Py.Qlt_bool. rewrite negb_true_iff.
  split; intro H.
  - apply Qnot_le_lt. intro Hle. apply Qle_bool_iff in Hle. congruence.
  - destruct (Qle_bool b a) eqn:E; [|reflexivity].
    apply Qle_bool_iff in E. apply Qle_not_lt in E. contradiction.
Qed.

Lemma Qlt_bool_false_iff (a b : Q) : Py.Qlt_bool a b = false <-> (b <= a)%Q.
Proof.
  unfold Py.Qlt_bool. rewrite negb_false_iff. apply Qle_bool_iff.
Qed.

(** ** Which loans the engine selects as current *)

Lemma filter_end_date_gte_In (today : date) (qs : list Loan.t) (l : Loan.t) :
  In l (filter_end_date_gte today qs) <->
  In l qs /\ exists d, Loan.end_date l = Some d /\ date_leb today d = true.
Proof.
  unfold filter_end_date_gte. rewrite filter_In.
  split; intros [Hin H]; split; try exact Hin.
  - destruct (Loan.end_date l) as [d|]; [|discriminate].
    exists d. split; [reflexivity | exact H].
  - destruct H as (d & -> & H). exact H.
Qed.

(** C1, evaluated at the failing input: a customer's only loan has no end
    date.  The spec's reading counts it as current; the engine selects no
    current loan, so neither the hard override (the amount is above the
    limit, the score is 45) nor the burden check (the installment is
    above half of the salary, the request is approved) sees it. *)
Lemma C1_open_ended_loan_not_current :
  current_per_spec Sample.today Sample.open_ended = true
  /\ filter_end_date_gte Sample.today
       (Customer_loans Sample.db_open_ended Sample.john) = []
  /\ calculate_credit_score Sample.db_open_ended Sample.today Sample.john = 45
  /\ check_loan_eligibility Sample.db_open_ended Sample.today 1 100000 15 12
     = Py.Ok (Some Sample.john, true, 15%Q, 15%Q, 902583 # 100).
Proof.
  split; [reflexivity|]. split; [reflexivity|]. split; [reflexivity|].
  vm_compute. reflexivity.
Qed.

(** ** The hard override *)

Lemma credit_score_of_override
    (today : date) (c : Customer.t) (ls : list Loan.t) :
  (Customer.approved_limit c < total_current_loan_amount today ls)%Q ->
  credit_score_of today c ls = 0.
Proof.
  intro H. unfold credit_score_of.
  apply Qlt_bool_iff in H. rewrite H. reflexivity.
Qed.

(** C3, evaluated at the failing input of C1: the customer's only loan
    has no end date, so it is current in the spec's reading, and its
    amount, 2,000,000, is strictly above the approved limit, 1,800,000.
    The engine does not select it as current and scores the customer 45,
    not 0; the same loan with an end date a year ahead gives 0. *)
Lemma C3_open_ended_over_limit_scores_45 :
  filter (current_per_spec Sample.today)
         (Customer_loans Sample.db_open_ended Sample.john)
  = [Sample.open_ended]
  /\ (Customer.approved_limit Sample.john
      < Py.sum (map Loan.loan_amount
                    (filter (current_per_spec Sample.today)
                            (Customer_loans Sample.db_open_ended
                                            Sample.john))))%Q
  /\ calculate_credit_score Sample.db_open_ended Sample.today Sample.john
     = 45
  /\ calculate_credit_score Sample.db_open_ended Sample.today Sample.john
     <> 0
  /\ calculate_credit_score Sample.db_over_limit Sample.today Sample.john
     = 0.
Proof.
  split; [reflexivity|]. split; [reflexivity|]. split; [reflexivity|].
  split; [vm_compute; discriminate | reflexivity].
Qed.

(** ** The eligibility decision *)

(** C4, evaluated at the failing input of C1: the installment of the
    customer's only loan, which has no end date and so is current in the
    spec's reading, is 175,000, strictly above half of the salary,
    25,000.  The engine does not select the loan as current, goes on to
    the score and approves the request. *)
Lemma C4_open_ended_burden_approved :
  filter (current_per_spec Sample.today)
         (Customer_loans Sample.db_open_ended Sample.john)
  = [Sample.open_ended]
  /\ ((1 # 2) * Customer.monthly_salary Sample.john
      < Py.sum (map Loan.monthly_repayment
                    (filter (current_per_spec Sample.today)
                            (Customer_loans Sample.db_open_ended
                                            Sample.john))))%Q
  /\ total_current_emis Sample.db_open_ended Sample.today Sample.john = 0%Q
  /\ check_loan_eligibility Sample.db_open_ended Sample.today 1 100000 15 12
     = Py.Ok (Some Sample.john, true, 15%Q, 15%Q, 902583 # 100).
Proof.
  split; [reflexivity|]. split; [reflexivity|]. split; [reflexivity|].
  vm_compute. reflexivity.
Qed.

(** C7: an id with no customer row gives [(None, False, rate, rate, 0)];
    a result for a stored customer carries that customer, so the two are
    told apart by the first component. *)
Theorem C7_unknown_customer_not_found
    (db : Database) (today : date) (customer_id : Z)
    (loan_amount interest_rate : Q) (tenure : Z) :
  (Customer_objects_get db customer_id = None ->
   check_loan_eligibility db today customer_id loan_amount interest_rate tenure
   = Py.Ok (None, false, interest_rate, interest_rate, 0%Q))
  /\ (forall (c : Customer.t) (found : option Customer.t) (approval : bool)
             (rate corrected_rate monthly_installment : Q),
        Customer_objects_get db customer_id = Some c ->
        check_loan_eligibility db today customer_id loan_amount interest_rate
                               tenure
        = Py.Ok (found, approval, rate, corrected_rate, monthly_installment) ->
        found = Some c /\ found <> None).
Proof.
  split.
  - intro Hget. unfold check_loan_eligibility. rewrite Hget. reflexivity.
  - intros c found approval rate corrected_rate monthly_installment Hget.
    unfold check_loan_eligibility. rewrite Hget.
    destruct (Py.Qlt_bool ((1 # 2) * _) _).
    + destruct (calculate_monthly_installment _ _ _); cbn; [|discriminate].
      intro H. injection H as <- _ _ _ _. split; [reflexivity|discriminate].
    + destruct (if 50 <? _ then _ else _) as [a r].
      destruct (calculate_monthly_installment _ _ _); cbn; [|discriminate].
      intro H. injection H as <- _ _ _ _. split; [reflexivity|discriminate].
Qed.

Lemma C7_unknown_customer_witness :
  check_loan_eligibility Sample.db_new Sample.today 99999 100000 15 12
  = Py.Ok (None, false, 15%Q, 15%Q, 0%Q)
  /\ (forall found approval rate corrected_rate monthly_installment,
        check_loan_eligibility Sample.db_heavy Sample.today 1 100000 10 12
        = Py.Ok (found, approval, rate, corrected_rate, monthly_installment) ->
        found = Some Sample.john /\ found <> None).
Proof.
  split.
  - apply (C7_unknown_customer_not_found
             Sample.db_new Sample.today 99999 100000 15 12).
    reflexivity.
  - intros found approval rate corrected_rate monthly_installment.
    apply (C7_unknown_customer_not_found
             Sample.db_heavy Sample.today 1 100000 10 12).
    reflexivity.
Defined.

(** ** The tier policy *)

Lemma sum_nil_current (today : date) :
  total_current_loan_amount today [] = 0%Q.
Proof. reflexivity. Qed.

Lemma new_customer_scores_50 (today : date) (c : Customer.t) :
  Customer_wf c -> credit_score_of today c [] = 50.
Proof.
  intro Hwf. unfold credit_score_of. rewrite sum_nil_current.
  replace (Py.Qlt_bool (Customer.approved_limit c) 0) with false.
  - reflexivity.
  - symmetry. apply Qlt_bool_false_iff. exact Hwf.
Qed.

(** Settles an integer test of the tier cascade from the bounds in the
    context. *)
Ltac settle_ltb a b :=
  first [ replace (a <? b) with true by (symmetry; apply Z.ltb_lt; lia)
        | replace (a <? b) with false by (symmetry; apply Z.ltb_ge; lia) ].

Ltac settle_leb a b :=
  first [ replace (a <=? b) with true by (symmetry; apply Z.leb_le; lia)
        | replace (a <=? b) with false by (symmetry; apply Z.leb_gt; lia) ].

(** C2, as the spec states it, fails in three ways.  At a tie: the two
    running installments of a customer, 12,500.10 and 12,500.20, sum to
    half of the salary of 50,000.60 exactly, and the customer scores 60,
    yet the sum the engine forms in binary64, 25000.300000000003
    ([0x1.86a1333333334p+14]), is above the half it forms, so the request
    is denied at the burden test.  At tenure 0: a customer with no loan
    who asks for 5% is not approved at 12, the call raises.  At a
    negative approved limit: a customer with no loan scores 0, not 50,
    and is denied. *)
Lemma C2_tier_policy_counterexample :
  ((total_current_emis MoreSamples.db_tied Sample.today MoreSamples.tied
    <= (1 # 2) * Customer.monthly_salary MoreSamples.tied)%Q
   /\ calculate_credit_score MoreSamples.db_tied Sample.today
                             MoreSamples.tied = 60
   /\ Generic.total_current_emis (A := Generic.Binary64)
        MoreSamples.db_tied Sample.today MoreSamples.tied
      = 0x1.86a1333333334p+14%float
   /\ Generic.over_burdened (A := Generic.Binary64)
        MoreSamples.db_tied Sample.today MoreSamples.tied = true
   /\ (forall (L : Generic.Library Generic.Binary64)
              (loan_amount interest_rate : PrimFloat.float) (tenure : Z),
         Generic.check_loan_eligibility (A := Generic.Binary64) (L := L)
           MoreSamples.db_tied Sample.today 3 loan_amount interest_rate
           tenure
         = (monthly_installment <-
              Generic.calculate_monthly_installment
                (A := Generic.Binary64) (L := L)
                loan_amount interest_rate tenure ;;
            Py.Ok (Some MoreSamples.tied, false, interest_rate,
                   interest_rate, monthly_installment))))
  /\ (Customer_loans Sample.db_new Sample.john = []
      /\ (total_current_emis Sample.db_new Sample.today Sample.john
          <= (1 # 2) * Customer.monthly_salary Sample.john)%Q
      /\ check_loan_eligibility Sample.db_new Sample.today 1 100000 5 0
         = Py.Raise Py.ZeroDivisionError)
  /\ (Customer_loans MoreSamples.db_overdrawn MoreSamples.overdrawn = []
      /\ (total_current_emis MoreSamples.db_overdrawn Sample.today
                             MoreSamples.overdrawn
          <= (1 # 2) * Customer.monthly_salary MoreSamples.overdrawn)%Q
      /\ calculate_credit_score MoreSamples.db_overdrawn Sample.today
                                MoreSamples.overdrawn = 0
      /\ check_loan_eligibility MoreSamples.db_overdrawn Sample.today 2
                                100000 5 12
         = Py.Ok (Some MoreSamples.overdrawn, false, 5%Q, 5%Q,
                  856075 # 100)).
Proof.
  split; [|split].
  - split; [vm_compute; discriminate|]. split; [vm_compute; reflexivity|].
    split; [vm_compute; reflexivity|].
    assert (Hover : Generic.over_burdened (A := Generic.Binary64)
              MoreSamples.db_tied Sample.today MoreSamples.tied = true)
      by (vm_compute; reflexivity).
    split; [exact Hover|].
    intros L loan_amount interest_rate tenure.
    unfold Generic.check_loan_eligibility.
    change (Customer_objects_get MoreSamples.db_tied 3)
      with (Some MoreSamples.tied).
    cbv iota beta. rewrite Hover. reflexivity.
  - split; [reflexivity|]. split; [vm_compute; discriminate|]. reflexivity.
  - split; [reflexivity|]. split; [vm_compute; discriminate|].
    split; [reflexivity|]. vm_compute. reflexivity.
Qed.

(** ** The approved limit *)

Lemma calculate_approved_limit_eq (x : Z) :
  calculate_approved_limit x
  = match 2 * ((36 * x) mod 100000) ?= 100000 with
    | Lt => (36 * x) / 100000
    | Gt => (36 * x) / 100000 + 1
    | Eq => if Z.even ((36 * x) / 100000)
            then (36 * x) / 100000 else (36 * x) / 100000 + 1
    end * 100000.
Proof.
  unfold calculate_approved_limit, Py.round. cbn [Qnum Qden Qdiv Qmult Qinv inject_Z].
  change (Z.pos (1 * 100000)) with 100000.
  rewrite Z.mul_1_r. reflexivity.
Qed.

Lemma round_half_up_to_eq (v : Z) :
  round_half_up_to 100000 v
  = (if 50000 <=? v mod 100000 then v / 100000 + 1 else v / 100000) * 100000.
Proof.
  unfold round_half_up_to. f_equal.
  pose proof (Z.div_mod v 100000 ltac:(lia)) as Hv.
  pose proof (Z.mod_pos_bound v 100000 ltac:(lia)) as Hr.
  destruct (Z.leb_spec 50000 (v mod 100000)) as [H | H]; symmetry.
  - apply (Z.div_unique _ _ _ (2 * (v mod 100000) - 100000)); lia.
  - apply (Z.div_unique _ _ _ (2 * (v mod 100000) + 100000)); lia.
Qed.

(** C5, as the spec states it, fails at a tie: 36 x 12,500 = 450,000 lies
    half way between 400,000 and 500,000; rounding half up gives 500,000,
    [round] goes to the even multiple, 400,000. *)
Lemma C5_half_up_counterexample :
  0 <= 12500
  /\ calculate_approved_limit 12500 = 400000
  /\ round_half_up_to 100000 (36 * 12500) = 500000
  /\ calculate_approved_limit 12500 <> round_half_up_to 100000 (36 * 12500).
Proof.
  split; [lia|]. split; [reflexivity|]. split; [reflexivity|].
  vm_compute. discriminate.
Qed.

(** C5, amended: for a non-negative monthly salary [x] with
    [36 * x < 2 ** 53], the range in which the quotient by 100,000 is
    computed from the exact product, the limit is a multiple of 100,000
    nearest to [36 * x], an exact tie going to the even multiple; away
    from ties it is the half-up rounding of the spec.  The two sample
    values hold as stated. *)
Theorem C5_approved_limit_nearest_even (x : Z) :
  0 <= x ->
  36 * x < 2 ^ 53 ->
  let limit := calculate_approved_limit x in
  (exists k, limit = k * 100000)
  /\ Z.abs (36 * x - limit) <= 50000
  /\ (Z.abs (36 * x - limit) = 50000 -> Z.even (limit / 100000) = true)
  /\ ((36 * x) mod 100000 <> 50000 ->
      limit = round_half_up_to 100000 (36 * x))
  /\ calculate_approved_limit 50000 = 1800000
  /\ calculate_approved_limit 10000 = 400000.
Proof.
  intros _ _ limit. subst limit.
  enough (H : (exists k, calculate_approved_limit x = k * 100000)
              /\ Z.abs (36 * x - calculate_approved_limit x) <= 50000
              /\ (Z.abs (36 * x - calculate_approved_limit x) = 50000 ->
                  Z.even (calculate_approved_limit x / 100000) = true)
              /\ ((36 * x) mod 100000 <> 50000 ->
                  calculate_approved_limit x
                  = round_half_up_to 100000 (36 * x))).
  { destruct H as (H1 & H2 & H3 & H4).
    repeat match goal with |- _ /\ _ => split end;
      try assumption; reflexivity. }
  rewrite calculate_approved_limit_eq, round_half_up_to_eq.
  set (v := 36 * x).
  pose proof (Z.div_mod v 100000 ltac:(lia)) as Hv.
  pose proof (Z.mod_pos_bound v 100000 ltac:(lia)) as Hr.
  set (f := v / 100000) in *. set (r := v mod 100000) in *.
  assert (Hk : forall k, k * 100000 / 100000 = k)
    by (intro k; apply Z.div_mul; lia).
  destruct (Z.compare_spec (2 * r) 100000) as [He | Hl | Hg].
  - destruct (Z.even f) eqn:Hf.
    + split; [exists f; reflexivity|]. split; [lia|]. split.
      * intros _. rewrite Hk. exact Hf.
      * intro Hne. exfalso. lia.
    + split; [exists (f + 1); reflexivity|]. split; [lia|]. split.
      * intros _. rewrite Hk. rewrite Z.even_add, Hf. reflexivity.
      * intro Hne. exfalso. lia.
  - split; [exists f; reflexivity|]. split; [lia|]. split; [lia|].
    intros _. destruct (Z.leb_spec 50000 r); [lia | reflexivity].
  - split; [exists (f + 1); reflexivity|]. split; [lia|]. split; [lia|].
    intros _. destruct (Z.leb_spec 50000 r); [reflexivity | lia].
Qed.

Lemma C5_approved_limit_witness :
  0 <= 30000
  /\ 36 * 30000 < 2 ^ 53
  /\ (exists k, calculate_approved_limit 30000 = k * 100000)
  /\ Z.abs (36 * 30000 - calculate_approved_limit 30000) <= 50000.
Proof.
  split; [lia|]. split; [reflexivity|].
  pose proof (C5_approved_limit_nearest_even 30000 ltac:(lia)
                                             ltac:(reflexivity)) as H.
  cbv zeta in H. destruct H as (Hk & Hd & _). split; assumption.
Defined.

(** ** The monthly installment *)

Lemma truediv_ok (a b : Q) : ~ (b == 0)%Q -> Py.truediv a b = Py.Ok (a / b)%Q.
Proof.
  intro Hb. unfold Py.truediv.
  destruct (Qeq_bool b 0) eqn:E; [|reflexivity].
  apply Qeq_bool_eq in E. contradiction.
Qed.

Lemma truediv_zero (a b : Q) :
  (b == 0)%Q -> Py.truediv a b = Py.Raise Py.ZeroDivisionError.
Proof.
  intro Hb. unfold Py.truediv. rewrite (Qeq_eq_bool _ _ Hb). reflexivity.
Qed.

Lemma pow_ok (b : Q) (n : Z) :
  0 <= n \/ ~ (b == 0)%Q -> Py.pow b n = Py.Ok (b ^ n)%Q.
Proof.
  intro H. unfold Py.pow.
  destruct (Qeq_bool b 0) eqn:E; [|reflexivity].
  destruct H as [Hn | Hb].
  - replace (n <? 0) with false by (symmetry; apply Z.ltb_ge; exact Hn).
    reflexivity.
  - apply Qeq_bool_eq in E. contradiction.
Qed.

Lemma inject_Z_nonzero (n : Z) : n <> 0 -> ~ (inject_Z n == 0)%Q.
Proof.
  intros Hn H. unfold Qeq in H. cbn in H. lia.
Qed.

(** With a positive rate and at least one period the denominator of the
    formula is positive. *)
Lemma growth_above_one (annual_rate : Q) (tenure : Z) :
  (0 < annual_rate)%Q -> 1 <= tenure ->
  (0 < (1 + annual_rate / (12 * 100)) ^ tenure - 1)%Q.
Proof.
  intros Hr Hn.
  assert (H1 : (1 < 1 + annual_rate / (12 * 100))%Q).
  { assert (0 < annual_rate / (12 * 100))%Q.
    { apply Qlt_shift_div_l; [reflexivity | lra]. }
    lra. }
  pose proof (Qpower_1_lt _ tenure H1 ltac:(lia)) as Hp.
  lra.
Qed.

Lemma installment_rate_zero (principal annual_rate : Q) (tenure : Z) :
  tenure <> 0 -> (annual_rate == 0)%Q ->
  calculate_monthly_installment principal annual_rate tenure
  = Py.Ok (principal / inject_Z tenure)%Q.
Proof.
  intros Hn H0. unfold calculate_monthly_installment.
  rewrite (Qeq_eq_bool _ _ H0).
  apply truediv_ok, inject_Z_nonzero. exact Hn.
Qed.

Lemma installment_rate_positive (principal annual_rate : Q) (tenure : Z) :
  1 <= tenure -> (0 < annual_rate)%Q ->
  calculate_monthly_installment principal annual_rate tenure
  = Py.Ok (Py.round2 (amortization principal annual_rate tenure)).
Proof.
  intros Hn Hpos. unfold calculate_monthly_installment.
  destruct (Qeq_bool annual_rate 0) eqn:E.
  { apply Qeq_bool_eq in E. rewrite E in Hpos. discriminate Hpos. }
  pose proof (growth_above_one annual_rate tenure Hpos Hn) as Hg.
  rewrite pow_ok by (left; lia). cbn [Py.bind].
  rewrite truediv_ok by (intro Hz; rewrite Hz in Hg; discriminate Hg).
  reflexivity.
Qed.

(** ** Truncation and the sums *)

Lemma int_floor (x : Q) : 0 <= Qnum x -> Py.int x = Qfloor x.
Proof.
  intro H. destruct x as [n d]. cbn in *.
  apply Z.quot_div_nonneg; lia.
Qed.

Lemma int_ceiling (x : Q) : Qnum x <= 0 -> Py.int x = Qceiling x.
Proof.
  intro H. destruct x as [n d]. unfold Py.int, Qceiling. cbn in *.
  rewrite <- (Z.opp_involutive n) at 1.
  rewrite Z.quot_opp_l by lia.
  rewrite Z.quot_div_nonneg by lia. reflexivity.
Qed.

Lemma int_nonneg (x : Q) : (0 <= x)%Q -> 0 <= Py.int x.
Proof.
  intro H. unfold Py.int. apply Z.quot_pos; [|lia].
  unfold Qle in H. cbn in H. lia.
Qed.

Lemma int_nonpos (x : Q) : Qnum x <= 0 -> Py.int x <= 0.
Proof.
  intro H. destruct x as [n d]. unfold Py.int. cbn in *.
  rewrite <- (Z.opp_involutive n).
  rewrite Z.quot_opp_l by lia.
  pose proof (Z.quot_pos (- n) (Z.pos d) ltac:(lia) ltac:(lia)). lia.
Qed.

(** [int] is monotone. *)
Lemma int_le (x y : Q) : (x <= y)%Q -> Py.int x <= Py.int y.
Proof.
  intro H.
  destruct (Z.le_gt_cases 0 (Qnum x)) as [Hx | Hx];
    destruct (Z.le_gt_cases 0 (Qnum y)) as [Hy | Hy].
  - rewrite !int_floor by assumption. apply Qfloor_resp_le. exact H.
  - exfalso. unfold Qle in H. nia.
  - pose proof (int_nonpos x ltac:(lia)) as Hx'.
    assert (Hy' : (0 <= y)%Q) by (unfold Qle; cbn; lia).
    apply int_nonneg in Hy'. lia.
  - rewrite !int_ceiling by lia. apply Qceiling_resp_le. exact H.
Qed.

Lemma sumZ_acc_nonneg (xs : list Z) (a : Z) :
  Forall (fun x => 0 <= x) xs -> 0 <= a -> 0 <= fold_left Z.add xs a.
Proof.
  intro H. revert a.
  induction H as [| x xs Hx _ IH]; intros a Ha; cbn.
  - exact Ha.
  - apply IH. lia.
Qed.

Lemma sumZ_nonneg (xs : list Z) :
  Forall (fun x => 0 <= x) xs -> 0 <= Py.sumZ xs.
Proof.
  intro H. apply sumZ_acc_nonneg; [exact H | lia].
Qed.

(** ** The score *)

Lemma loan_count_score_range (n : Z) : 5 <= loan_count_score n <= 20.
Proof.
  unfold loan_count_score.
  repeat match goal with |- context [if ?b then _ else _] => destruct b end;
    lia.
Qed.

Lemma activity_score_range (n : Z) : 5 <= activity_score n <= 20.
Proof.
  unfold activity_score.
  repeat match goal with |- context [if ?b then _ else _] => destruct b end;
    lia.
Qed.

Lemma volume_score_range (q : Q) : 5 <= volume_score q <= 25.
Proof.
  unfold volume_score.
  repeat match goal with |- context [if ?b then _ else _] => destruct b end;
    lia.
Qed.

Lemma on_time_ratio_nonneg (ls : list Loan.t) :
  Forall Loan_wf ls -> (0 <= on_time_ratio ls)%Q.
Proof.
  intro Hwf. unfold on_time_ratio.
  destruct (Z.ltb_spec 0 (Py.sumZ (map Loan.tenure ls))) as [Hpos | _];
    [|apply Qle_refl].
  assert (Hpaid : 0 <= Py.sumZ (map Loan.emis_paid_on_time ls)).
  { apply sumZ_nonneg. rewrite Forall_map.
    eapply Forall_impl; [|exact Hwf]. intros l (_ & _ & H). exact H. }
  apply Qle_shift_div_l.
  - unfold Qlt. cbn. lia.
  - unfold Qle. cbn. lia.
Qed.

(** The sum of the four components, as [calculate_credit_score] forms
    it. *)
Lemma credit_score_of_eq (today : date) (c : Customer.t) (ls : list Loan.t) :
  ls <> [] ->
  (total_current_loan_amount today ls <= Customer.approved_limit c)%Q ->
  credit_score_of today c ls
  = Z.min 100
      (Py.int (on_time_score ls
               + inject_Z (loan_count_score (Z.of_nat (length ls)))
               + inject_Z (activity_score (current_year_loans today ls))
               + inject_Z (volume_score
                             (volume_ratio (Customer.approved_limit c) ls)))%Q).
Proof.
  intros Hne Hle. unfold credit_score_of.
  replace (Py.Qlt_bool (Customer.approved_limit c)
                       (total_current_loan_amount today ls)) with false
    by (symmetry; apply Qlt_bool_false_iff; exact Hle).
  replace (Z.of_nat (length ls) =? 0) with false; [reflexivity|].
  symmetry. apply Z.eqb_neq. destruct ls; [contradiction | cbn; lia].
Qed.


(** ** Monotonicity in the on-time ratio *)

(** What two loan lists that differ in the paid counts alone share. *)
Lemma same_but_paid_shared (today : date) (ls1 ls2 : list Loan.t) :
  Forall2 same_but_paid ls1 ls2 ->
  length ls1 = length ls2
  /\ map Loan.loan_amount ls1 = map Loan.loan_amount ls2
  /\ map Loan.loan_amount (filter_end_date_gte today ls1)
     = map Loan.loan_amount (filter_end_date_gte today ls2)
  /\ length (filter_start_date_year (year today) ls1)
     = length (filter_start_date_year (year today) ls2).
Proof.
  induction 1 as [| l1 l2 ls1 ls2 Hl _ IH]; [repeat split|].
  destruct IH as (IH1 & IH2 & IH3 & IH4).
  destruct Hl as (_ & _ & Ha & _ & _ & _ & Hs & He).
  cbn [length map filter_end_date_gte filter_start_date_year filter].
  rewrite Ha, Hs, He, IH1, IH2.
  repeat split.
  - destruct (Loan.end_date l2) as [d|]; [destruct (date_leb today d)|];
      cbn [map]; try rewrite Ha; try exact IH3.
    f_equal. exact IH3.
  - destruct (Loan.start_date l2) as [d|]; [destruct (year d =? year today)|];
      cbn [length]; try exact IH4.
    f_equal. exact IH4.
Qed.

(** C9: two loan histories of a customer that differ in the counts of
    installments paid on time alone, so that the loan count, the loans
    started this year, the volume ratio, the current loan amounts and the
    total tenure are the same: the history with the higher on-time ratio
    scores at least as much. *)
Theorem C9_score_monotone_in_on_time_ratio
    (db1 db2 : Database) (today : date) (c : Customer.t) :
  Forall2 same_but_paid (Customer_loans db1 c) (Customer_loans db2 c) ->
  (on_time_ratio (Customer_loans db1 c)
   <= on_time_ratio (Customer_loans db2 c))%Q ->
  calculate_credit_score db1 today c <= calculate_credit_score db2 today c.
Proof.
  unfold calculate_credit_score.
  generalize (Customer_loans db1 c) (Customer_loans db2 c).
  intros ls1 ls2 Hsame Hratio.
  destruct (same_but_paid_shared today ls1 ls2 Hsame)
    as (Hcount & Hvolume & Hcurrent & Hyear).
  unfold credit_score_of, total_current_loan_amount, volume_ratio,
    total_loan_volume, current_year_loans.
  rewrite Hcurrent, Hcount, Hvolume, Hyear.
  destruct (Py.Qlt_bool _ _); [lia|].
  destruct (Z.of_nat (length ls2) =? 0); [lia|].
  apply Z.min_le_compat_l, int_le.
  unfold on_time_score.
  assert ((on_time_ratio ls1 * 35 <= on_time_ratio ls2 * 35)%Q)
    by (apply Qmult_le_compat_r; [exact Hratio | discriminate]).
  lra.
Qed.

Lemma C9_score_monotone_witness :
  Forall2 same_but_paid
          (Customer_loans Sample.db_half_repaid Sample.john)
          (Customer_loans Sample.db_repaid Sample.john)
  /\ calculate_credit_score Sample.db_half_repaid Sample.today Sample.john
     <= calculate_credit_score Sample.db_repaid Sample.today Sample.john.
Proof.
  assert (Hsame : Forall2 same_but_paid
            (Customer_loans Sample.db_half_repaid Sample.john)
            (Customer_loans Sample.db_repaid Sample.john)).
  { constructor; [|constructor]. repeat split. }
  split; [exact Hsame|].
  apply (C9_score_monotone_in_on_time_ratio
           Sample.db_half_repaid Sample.db_repaid Sample.today Sample.john
           Hsame).
  vm_compute. discriminate.
Defined.

(** ** The rates of a decision *)



(** ** Rounding *)

(** [round] picks an integer within one half, and an even one at a tie. *)
Lemma round_spec (x : Q) :
  let R := Py.round x in
  let n := Qnum x in
  let d := Z.pos (Qden x) in
  (2 * R - 1) * d <= 2 * n <= (2 * R + 1) * d
  /\ (2 * n = (2 * R - 1) * d -> Z.even R = true)
  /\ (2 * n = (2 * R + 1) * d -> Z.even R = true).
Proof.
  unfold Py.round. cbv zeta.
  set (n := Qnum x). set (d := Z.pos (Qden x)).
  assert (Hd : 0 < d) by (unfold d; lia).
  pose proof (Z.div_mod n d ltac:(lia)) as Hn.
  pose proof (Z.mod_pos_bound n d Hd) as Hr.
  set (f := n / d) in *. set (r := n mod d) in *.
  destruct (Z.compare_spec (2 * r) d) as [He | Hl | Hg].
  - destruct (Z.even f) eqn:Hf.
    + repeat split; try lia. all: intros _; exact Hf.
    + assert (Hf1 : Z.even (f + 1) = true)
        by (rewrite Z.even_add, Hf; reflexivity).
      repeat split; try lia. all: intros _; exact Hf1.
  - repeat split; try lia.
  - repeat split; try lia.
Qed.

Lemma round_le (x y : Q) : (x <= y)%Q -> Py.round x <= Py.round y.
Proof.
  intro Hxy.
  destruct (round_spec x) as ((Hx1 & Hx2) & Hxe & _).
  destruct (round_spec y) as ((Hy1 & Hy2) & _ & Hye).
  unfold Qle in Hxy.
  set (a := Py.round x) in *. set (b := Py.round y) in *.
  set (nx := Qnum x) in *. set (ny := Qnum y) in *.
  assert (Hdx : 0 < Z.pos (Qden x)) by lia.
  assert (Hdy : 0 < Z.pos (Qden y)) by lia.
  set (dx := Z.pos (Qden x)) in *. set (dy := Z.pos (Qden y)) in *.
  destruct (Z.le_gt_cases a b) as [Hle | Hgt]; [exact Hle | exfalso].
  assert (H1 : (2 * a - 1) * dx * dy <= 2 * nx * dy) by nia.
  assert (H2 : 2 * ny * dx <= (2 * b + 1) * dy * dx) by nia.
  assert (H3 : 2 * nx * dy <= 2 * ny * dx) by nia.
  assert (Hab : a = b + 1) by nia.
  assert (Ex : 2 * nx = (2 * a - 1) * dx) by nia.
  assert (Ey : 2 * ny = (2 * b + 1) * dy) by nia.
  specialize (Hxe Ex). specialize (Hye Ey).
  rewrite Hab, Z.even_add, Hye in Hxe. discriminate Hxe.
Qed.

Lemma round2_le (x y : Q) : (x <= y)%Q -> (Py.round2 x <= Py.round2 y)%Q.
Proof.
  intro H. unfold Py.round2, Qle. cbn [Qnum Qden].
  apply Z.mul_le_mono_nonneg_r; [lia|].
  apply round_le. apply Qmult_le_compat_r; [exact H | discriminate].
Qed.

Lemma calculate_approved_limit_le (a b : Z) :
  a <= b -> calculate_approved_limit a <= calculate_approved_limit b.
Proof.
  intro Hab. unfold calculate_approved_limit.
  apply Z.mul_le_mono_nonneg_r; [lia|].
  apply round_le. unfold Qle.
  cbn [Qnum Qden Qdiv Qmult Qinv inject_Z].
  change (Z.pos (1 * 100000)) with 100000. lia.
Qed.

(** X1: the limit grows with the salary, and is not negative for a
    non-negative salary. *)
Theorem approved_limit_monotone (x y : Z) :
  x <= y ->
  calculate_approved_limit x <= calculate_approved_limit y
  /\ (0 <= x -> 0 <= calculate_approved_limit x).
Proof.
  intro Hxy. split; [apply calculate_approved_limit_le; exact Hxy|].
  intro Hx. change 0 with (calculate_approved_limit 0).
  apply calculate_approved_limit_le. exact Hx.
Qed.

Lemma approved_limit_monotone_witness :
  calculate_approved_limit 30000 <= calculate_approved_limit 50000.
Proof.
  exact (proj1 (approved_limit_monotone 30000 50000 ltac:(lia))).
Defined.

(** ** Installments *)

Lemma amortization_le (p1 p2 annual_rate : Q) (tenure : Z) :
  1 <= tenure -> (0 < annual_rate)%Q -> (p1 <= p2)%Q ->
  (amortization p1 annual_rate tenure <= amortization p2 annual_rate tenure)%Q.
Proof.
  intros Hn Hr Hp. unfold amortization. cbv zeta.
  pose proof (growth_above_one annual_rate tenure Hr Hn) as Hg.
  change (12 * 100)%Q with 1200%Q in Hg.
  set (r := (annual_rate / 1200)%Q) in *.
  assert (Hr0 : (0 <= r)%Q).
  { unfold r. apply Qle_shift_div_l; [reflexivity | lra]. }
  set (X := ((1 + r) ^ tenure)%Q) in *.
  unfold Qdiv.
  apply Qmult_le_compat_r; [| apply Qinv_le_0_compat; lra].
  apply Qmult_le_compat_r; [| lra].
  apply Qmult_le_compat_r; assumption.
Qed.

(** X2: from one period on and at a non-negative rate, a larger
    principal never gives a smaller installment: when the two calls
    return, their results are ordered as the principals are. *)
Theorem installment_monotone_in_principal
    (p1 p2 annual_rate : Q) (tenure : Z) (e1 e2 : Q) :
  1 <= tenure -> (0 <= annual_rate)%Q -> (p1 <= p2)%Q ->
  calculate_monthly_installment p1 annual_rate tenure = Py.Ok e1 ->
  calculate_monthly_installment p2 annual_rate tenure = Py.Ok e2 ->
  (e1 <= e2)%Q.
Proof.
  intros Hn Hr Hp. apply Qle_lt_or_eq in Hr. destruct Hr as [Hr | Hr].
  - rewrite !installment_rate_positive by assumption.
    intros H1 H2. injection H1 as <-. injection H2 as <-.
    apply round2_le, amortization_le; assumption.
  - rewrite !installment_rate_zero by (lia || (symmetry; exact Hr)).
    intros H1 H2. injection H1 as <-. injection H2 as <-.
    unfold Qdiv. apply Qmult_le_compat_r; [exact Hp|].
    apply Qinv_le_0_compat. unfold Qle. cbn. lia.
Qed.

Lemma installment_monotone_witness :
  calculate_monthly_installment 100000 10 12 = Py.Ok (879159 # 100)
  /\ calculate_monthly_installment 200000 10 12 = Py.Ok (1758318 # 100)
  /\ (879159 # 100 <= 1758318 # 100)%Q.
Proof.
  assert (H1 : calculate_monthly_installment 100000 10 12
               = Py.Ok (879159 # 100)) by (vm_compute; reflexivity).
  assert (H2 : calculate_monthly_installment 200000 10 12
               = Py.Ok (1758318 # 100)) by (vm_compute; reflexivity).
  split; [exact H1|]. split; [exact H2|].
  exact (installment_monotone_in_principal
           100000 200000 10 12 (879159 # 100) (1758318 # 100)
           ltac:(lia) ltac:(discriminate) ltac:(discriminate) H1 H2).
Defined.

Lemma amortization_nonneg (principal annual_rate : Q) (tenure : Z) :
  1 <= tenure -> (0 < annual_rate)%Q -> (0 <= principal)%Q ->
  (0 <= amortization principal annual_rate tenure)%Q.
Proof.
  intros Hn Hr Hp. unfold amortization. cbv zeta.
  pose proof (growth_above_one annual_rate tenure Hr Hn) as Hg.
  change (12 * 100)%Q with 1200%Q in Hg.
  set (r := (annual_rate / 1200)%Q) in *.
  assert (Hr0 : (0 <= r)%Q).
  { unfold r. apply Qle_shift_div_l; [reflexivity | lra]. }
  set (X := ((1 + r) ^ tenure)%Q) in *.
  assert (Hnum : (0 <= principal * r * X)%Q).
  { apply Qmult_le_0_compat; [apply Qmult_le_0_compat; assumption | lra]. }
  apply Qle_shift_div_l; [exact Hg | lra].
Qed.

(** X3: from one period on, at a non-negative rate and for a
    non-negative principal, an installment the call returns is not
    negative. *)
Theorem installment_not_negative
    (principal annual_rate : Q) (tenure : Z) (emi : Q) :
  1 <= tenure -> (0 <= annual_rate)%Q -> (0 <= principal)%Q ->
  calculate_monthly_installment principal annual_rate tenure = Py.Ok emi ->
  (0 <= emi)%Q.
Proof.
  intros Hn Hr Hp.
  assert (HN : (1 <= inject_Z tenure)%Q) by (unfold Qle; cbn; lia).
  apply Qle_lt_or_eq in Hr. destruct Hr as [Hr | Hr].
  - rewrite installment_rate_positive by assumption.
    intro H. injection H as <-.
    pose proof (amortization_nonneg principal annual_rate tenure Hn Hr Hp)
      as Hpos.
    apply (round2_le 0) in Hpos.
    apply (Qle_trans _ (Py.round2 0)); [discriminate | exact Hpos].
  - rewrite installment_rate_zero by (lia || (symmetry; exact Hr)).
    intro H. injection H as <-.
    apply Qle_shift_div_l; lra.
Qed.

Lemma installment_not_negative_witness :
  calculate_monthly_installment 100000 10 12 = Py.Ok (879159 # 100)
  /\ (0 <= 879159 # 100)%Q.
Proof.
  assert (H : calculate_monthly_installment 100000 10 12
              = Py.Ok (879159 # 100)) by (vm_compute; reflexivity).
  split; [exact H|].
  exact (installment_not_negative
           100000 10 12 (879159 # 100)
           ltac:(lia) ltac:(discriminate) ltac:(discriminate) H).
Defined.

(** ** More on the score *)

Lemma total_score_at_least_15 (today : date) (limit : Q) (ls : list Loan.t) :
  Forall Loan_wf ls ->
  (15 <= on_time_score ls
         + inject_Z (loan_count_score (Z.of_nat (length ls)))
         + inject_Z (activity_score (current_year_loans today ls))
         + inject_Z (volume_score (volume_ratio limit ls)))%Q.
Proof.
  intro Hwf.
  pose proof (on_time_ratio_nonneg ls Hwf) as H1.
  pose proof (loan_count_score_range (Z.of_nat (length ls))) as H2.
  pose proof (activity_score_range (current_year_loans today ls)) as H3.
  pose proof (volume_score_range (volume_ratio limit ls)) as H4.
  assert (H1' : (0 <= on_time_score ls)%Q).
  { unfold on_time_score. apply Qmult_le_0_compat; [exact H1 | discriminate]. }
  assert (H2' : (5 <= inject_Z (loan_count_score (Z.of_nat (length ls))))%Q)
    by (unfold Qle; cbn; lia).
  assert (H3' : (5 <= inject_Z (activity_score (current_year_loans today ls)))%Q)
    by (unfold Qle; cbn; lia).
  assert (H4' : (5 <= inject_Z (volume_score (volume_ratio limit ls)))%Q)
    by (unfold Qle; cbn; lia).
  lra.
Qed.

Lemma credit_score_of_floor (today : date) (c : Customer.t) (ls : list Loan.t) :
  Forall Loan_wf ls ->
  (total_current_loan_amount today ls <= Customer.approved_limit c)%Q ->
  15 <= credit_score_of today c ls <= 100.
Proof.
  intros Hwf Hle.
  destruct ls as [| l ls].
  - unfold credit_score_of.
    replace (Py.Qlt_bool (Customer.approved_limit c)
                         (total_current_loan_amount today [])) with false
      by (symmetry; apply Qlt_bool_false_iff; exact Hle).
    cbn. lia.
  - rewrite credit_score_of_eq by (assumption || discriminate).
    pose proof (total_score_at_least_15 today (Customer.approved_limit c)
                  (l :: ls) Hwf) as H15.
    apply int_le in H15. change (Py.int 15) with 15 in H15. lia.
Qed.

(** X4: the score of a customer with well-formed loans is 0, the value
    of the override, or at least 15: every band gives 5 points or more,
    so no such customer scores from 1 to 14, and a score of 10 or less
    is a score of 0. *)
Theorem score_zero_or_at_least_15
    (db : Database) (today : date) (c : Customer.t) :
  Forall Loan_wf (Customer_loans db c) ->
  calculate_credit_score db today c = 0
  \/ 15 <= calculate_credit_score db today c <= 100.
Proof.
  intro Hwf. unfold calculate_credit_score.
  destruct (Qlt_le_dec (Customer.approved_limit c)
              (total_current_loan_amount today (Customer_loans db c)))
    as [Hov | Hle].
  - left. apply credit_score_of_override. exact Hov.
  - right. apply credit_score_of_floor; assumption.
Qed.

Lemma score_zero_or_at_least_15_witness :
  calculate_credit_score Sample.db_half_repaid Sample.today Sample.john = 0
  \/ 15 <= calculate_credit_score Sample.db_half_repaid Sample.today
                                  Sample.john <= 100.
Proof.
  apply (score_zero_or_at_least_15
           Sample.db_half_repaid Sample.today Sample.john).
  constructor; [|constructor].
  unfold Loan_wf. cbn. repeat split; (lia || discriminate).
Defined.

Lemma loan_count_score_antitone (a b : Z) :
  a <= b -> loan_count_score b <= loan_count_score a.
Proof.
  intro H. unfold loan_count_score.
  repeat match goal with
         | |- context [?x <=? ?y] => destruct (Z.leb_spec x y)
         end; lia.
Qed.

Lemma activity_score_antitone (a b : Z) :
  0 <= a <= b -> activity_score b <= activity_score a.
Proof.
  intro H. unfold activity_score.
  repeat match goal with
         | |- context [?x <=? ?y] => destruct (Z.leb_spec x y)
         | |- context [?x =? ?y] => destruct (Z.eqb_spec x y)
         end; lia.
Qed.

(** X5: the two components banded on a count step down as the count
    grows: a longer loan history never has a higher loan-count component,
    and a history with more loans started this year never has a higher
    activity component. *)
Theorem banded_components_antitone
    (today : date) (ls1 ls2 : list Loan.t) :
  (length ls1 <= length ls2)%nat ->
  current_year_loans today ls1 <= current_year_loans today ls2 ->
  loan_count_score (Z.of_nat (length ls2))
  <= loan_count_score (Z.of_nat (length ls1))
  /\ activity_score (current_year_loans today ls2)
     <= activity_score (current_year_loans today ls1).
Proof.
  intros Hcount Hyear. split.
  - apply loan_count_score_antitone. lia.
  - apply activity_score_antitone. split; [|exact Hyear].
    unfold current_year_loans. lia.
Qed.

Lemma banded_components_antitone_witness :
  loan_count_score
    (Z.of_nat (length (Customer_loans MoreSamples.db_four_repaid Sample.john)))
  <= loan_count_score
       (Z.of_nat (length (Customer_loans Sample.db_repaid Sample.john)))
  /\ activity_score
       (current_year_loans Sample.today
          (Customer_loans MoreSamples.db_four_repaid Sample.john))
     <= activity_score
          (current_year_loans Sample.today
             (Customer_loans Sample.db_repaid Sample.john)).
Proof.
  apply (banded_components_antitone Sample.today
           (Customer_loans Sample.db_repaid Sample.john)
           (Customer_loans MoreSamples.db_four_repaid Sample.john)).
  - cbn. lia.
  - vm_compute. discriminate.
Defined.

(** ** More on the decision *)

(** The decision for a stored customer past the burden test. *)
Lemma check_loan_eligibility_scored
    (db : Database) (today : date) (customer_id : Z) (c : Customer.t)
    (loan_amount interest_rate : Q) (tenure : Z) :
  Customer_objects_get db customer_id = Some c ->
  (total_current_emis db today c <= (1 # 2) * Customer.monthly_salary c)%Q ->
  check_loan_eligibility db today customer_id loan_amount interest_rate tenure
  = (let credit_score := calculate_credit_score db today c in
     let '(approval, corrected_rate) :=
       if 50 <? credit_score then (true, interest_rate)
       else if (30 <? credit_score) && (credit_score <=? 50) then
         if Py.Qlt_bool 12 interest_rate then (true, interest_rate)
         else (true, 12%Q)
       else if (10 <? credit_score) && (credit_score <=? 30) then
         if Py.Qlt_bool 16 interest_rate then (true, interest_rate)
         else (true, 16%Q)
       else (false, interest_rate) in
     monthly_installment <-
       calculate_monthly_installment loan_amount corrected_rate tenure ;;
     Py.Ok (Some c, approval, interest_rate, corrected_rate,
            monthly_installment)).
Proof.
  intros Hget Hburden. unfold check_loan_eligibility. rewrite Hget.
  replace (Py.Qlt_bool ((1 # 2) * Customer.monthly_salary c)
                       (total_current_emis db today c)) with false
    by (symmetry; apply Qlt_bool_false_iff; exact Hburden).
  reflexivity.
Qed.

(** X7: the corrected rate is a fixed point of the decision: asking again at
    the corrected rate gives the same customer, approval and installment,
    with nothing left to correct. *)
Theorem resubmit_at_corrected_rate
    (db : Database) (today : date) (customer_id : Z)
    (loan_amount interest_rate : Q) (tenure : Z)
    (found : option Customer.t) (approval : bool)
    (rate corrected_rate monthly_installment : Q) :
  check_loan_eligibility db today customer_id loan_amount interest_rate tenure
  = Py.Ok (found, approval, rate, corrected_rate, monthly_installment) ->
  check_loan_eligibility db today customer_id loan_amount corrected_rate tenure
  = Py.Ok (found, approval, corrected_rate, corrected_rate,
           monthly_installment).
Proof.
  unfold check_loan_eligibility.
  destruct (Customer_objects_get db customer_id) as [c|].
  - destruct (Py.Qlt_bool ((1 # 2) * _) _).
    + destruct (calculate_monthly_installment loan_amount interest_rate tenure)
        as [emi|] eqn:E; cbn [Py.bind]; [|discriminate].
      intro H. injection H as <- <- _ <- <-. rewrite E. reflexivity.
    + set (score := calculate_credit_score db today c).
      destruct (50 <? score).
      { destruct (calculate_monthly_installment loan_amount interest_rate tenure)
          as [emi|] eqn:E; cbn [Py.bind]; [|discriminate].
        intro H. injection H as <- <- _ <- <-. rewrite E. reflexivity. }
      destruct ((30 <? score) && (score <=? 50)).
      { destruct (Py.Qlt_bool 12 interest_rate) eqn:E12.
        - destruct (calculate_monthly_installment loan_amount interest_rate tenure)
            as [emi|] eqn:E; cbn [Py.bind]; [|discriminate].
          intro H. injection H as <- <- _ <- <-. rewrite E12, E. reflexivity.
        - destruct (calculate_monthly_installment loan_amount 12 tenure)
            as [emi|] eqn:E; cbn [Py.bind]; [|discriminate].
          intro H. injection H as <- <- _ <- <-.
          change (Py.Qlt_bool 12 12) with false. cbv beta iota.
          rewrite E. reflexivity. }
      destruct ((10 <? score) && (score <=? 30)).
      { destruct (Py.Qlt_bool 16 interest_rate) eqn:E16.
        - destruct (calculate_monthly_installment loan_amount interest_rate tenure)
            as [emi|] eqn:E; cbn [Py.bind]; [|discriminate].
          intro H. injection H as <- <- _ <- <-. rewrite E16, E. reflexivity.
        - destruct (calculate_monthly_installment loan_amount 16 tenure)
            as [emi|] eqn:E; cbn [Py.bind]; [|discriminate].
          intro H. injection H as <- <- _ <- <-.
          change (Py.Qlt_bool 16 16) with false. cbv beta iota.
          rewrite E. reflexivity. }
      destruct (calculate_monthly_installment loan_amount interest_rate tenure)
        as [emi|] eqn:E; cbn [Py.bind]; [|discriminate].
      intro H. injection H as <- <- _ <- <-. rewrite E. reflexivity.
  - intro H. injection H as <- <- _ <- <-. reflexivity.
Qed.

Lemma resubmit_at_corrected_rate_witness :
  check_loan_eligibility Sample.db_new Sample.today 1 100000 12 12
  = Py.Ok (Some Sample.john, true, 12%Q, 12%Q, 888488 # 100).
Proof.
  apply (resubmit_at_corrected_rate
           Sample.db_new Sample.today 1 100000 5 12 _ _ 5%Q).
  vm_compute. reflexivity.
Defined.

(** ** The request layer *)

Lemma find_snoc {A : Type} (f : A -> bool) (xs : list A) (x : A) :
  find f (xs ++ [x])
  = match find f xs with
    | Some y => Some y
    | None => if f x then Some x else None
    end.
Proof.
  induction xs as [| y ys IH]; cbn.
  - reflexivity.
  - destruct (f y); [reflexivity | exact IH].
Qed.

Lemma Customer_objects_get_id (db : Database) (customer_id : Z)
    (c : Customer.t) :
  Customer_objects_get db customer_id = Some c ->
  In c (customers db) /\ Customer.id c = customer_id.
Proof.
  intro H. apply find_some in H. destruct H as [Hin Hid].
  split; [exact Hin | apply Z.eqb_eq; exact Hid].
Qed.

Section WithOrm.

Context {orm : Orm} (laws : Orm_laws orm).

(** The customer's loans after a loan row is added. *)
Lemma Customer_loans_snoc (db db' : Database) (l : Loan.t) (c : Customer.t) :
  loans db' = loans db ++ [l] ->
  Customer_loans db' c
  = Customer_loans db c
    ++ (if Loan.customer_id l =? Customer.id c then [l] else []).
Proof.
  intro H. unfold Customer_loans. rewrite H, filter_app. reflexivity.
Qed.

(** A row with no end date is not among the current loans. *)
Lemma current_loans_snoc_open_ended
    (db db' : Database) (today : date) (l : Loan.t) (c : Customer.t) :
  loans db' = loans db ++ [l] ->
  Loan.end_date l = None ->
  filter_end_date_gte today (Customer_loans db' c)
  = filter_end_date_gte today (Customer_loans db c).
Proof.
  intros H Hend. rewrite (Customer_loans_snoc db db' l c H).
  unfold filter_end_date_gte. rewrite filter_app.
  destruct (Loan.customer_id l =? Customer.id c); cbn [filter].
  - rewrite Hend. apply app_nil_r.
  - apply app_nil_r.
Qed.

(** What [CreateLoanView.post] did, read off its outcome. *)
Lemma CreateLoanView_post_inv
    (db db' : Database) (today : date) (request : option LoanRequest.t)
    (out : outcome CreateLoanData.t) :
  CreateLoanView_post db today request = (db', out) ->
  db' = db
  \/ exists (data : LoanRequest.t) (customer : Customer.t) (l : Loan.t)
            (interest_rate corrected_rate monthly_installment : Q),
       request = Some data
       /\ Customer_objects_get db (LoanRequest.customer_id data) = Some customer
       /\ check_loan_eligibility db today
            (LoanRequest.customer_id data) (LoanRequest.loan_amount data)
            (LoanRequest.interest_rate data) (LoanRequest.tenure data)
          = Py.Ok (Some customer, true, interest_rate, corrected_rate,
                   monthly_installment)
       /\ Loan_objects_create db
            (NewLoan.mk customer (LoanRequest.loan_amount data)
                        (LoanRequest.tenure data) corrected_rate
                        monthly_installment 0 (Some today) None)
          = Some (db', l)
       /\ out = Response HTTP_201_CREATED
                  (CreateLoanData.mk (Some (Loan.id l))
                     (LoanRequest.customer_id data) true
                     "Loan approved successfully."%string monthly_installment).
Proof.
  unfold CreateLoanView_post.
  destruct request as [data|]; [|intro H; injection H as <- _; left; reflexivity].
  destruct (Customer_objects_get db (LoanRequest.customer_id data))
    as [customer|] eqn:Hget;
    [|intro H; injection H as <- _; left; reflexivity].
  destruct (check_loan_eligibility _ _ _ _ _ _)
    as [[[[[customer_obj approval] interest_rate] corrected_rate]
           monthly_installment]|e] eqn:Hcheck;
    [|intro H; injection H as <- _; left; reflexivity].
  destruct approval; cbn [negb];
    [|intro H; injection H as <- _; left; reflexivity].
  destruct (Loan_objects_create _ _) as [[db1 l]|] eqn:Hcreate;
    [|intro H; injection H as <- _; left; reflexivity].
  intro H. injection H as <- <-. right.
  exists data, customer, l, interest_rate, corrected_rate, monthly_installment.
  assert (Hobj : customer_obj = Some customer).
  { revert Hcheck. unfold check_loan_eligibility. rewrite Hget.
    destruct (Py.Qlt_bool ((1 # 2) * _) _).
    - destruct (calculate_monthly_installment _ _ _); cbn; [|discriminate].
      intro H. injection H as <- _ _ _ _. reflexivity.
    - destruct (if 50 <? _ then _ else _) as [a r].
      destruct (calculate_monthly_installment _ _ _); cbn; [|discriminate].
      intro H. injection H as <- _ _ _ _. reflexivity. }
  subst customer_obj. repeat split; assumption || reflexivity.
Qed.

(** X8: [CreateLoanView.post] changes the database only when it answers 201,
    and then by one loan row: the row belongs to the customer of the
    request, starts today, has no end date and no installment paid, so
    all of its tenure is left to repay.  A refusal answers 200 with no
    loan id; every other outcome leaves the database as it was.  The
    customers table is never touched. *)
Theorem CreateLoanView_stores_only_approved_loans
    (db db' : Database) (today : date) (request : option LoanRequest.t)
    (out : outcome CreateLoanData.t) :
  CreateLoanView_post db today request = (db', out) ->
  customers db' = customers db
  /\ match out with
     | Response status data =>
       if CreateLoanData.loan_approved data then
         status = HTTP_201_CREATED
         /\ exists l : Loan.t,
              loans db' = loans db ++ [l]
              /\ CreateLoanData.loan_id data = Some (Loan.id l)
              /\ Loan.customer_id l = CreateLoanData.customer_id data
              /\ Loan.start_date l = Some today
              /\ Loan.end_date l = None
              /\ Loan.emis_paid_on_time l = 0
              /\ Loan.repayments_left l = Z.max 0 (Loan.tenure l)
       else
         status = HTTP_200_OK
         /\ CreateLoanData.loan_id data = None
         /\ db' = db
     | ErrorResponse _ | Unhandled _ => db' = db
     end.
Proof.
  intro Hpost.
  destruct (CreateLoanView_post_inv db db' today request out Hpost)
    as [Hsame | (data & customer & l & rate & corrected & emi
                 & -> & Hget & Hcheck & Hcreate & ->)].
  - subst db'. split; [reflexivity|].
    revert Hpost. unfold CreateLoanView_post.
    destruct request as [data|]; [|intro H; injection H as <-; reflexivity].
    destruct (Customer_objects_get db (LoanRequest.customer_id data));
      [|intro H; injection H as <-; reflexivity].
    destruct (check_loan_eligibility _ _ _ _ _ _)
      as [[[[[customer_obj approval] interest_rate] corrected_rate]
             monthly_installment]|e];
      [|intro H; injection H as <-; reflexivity].
    destruct approval; cbn [negb].
    + destruct (Loan_objects_create _ _) as [[db1 l]|] eqn:Hcreate.
      * intro H. injection H as Hdb <-. cbn.
        destruct (loan_created orm laws _ _ _ _ Hcreate)
          as (_ & Hloans & _).
        exfalso. rewrite Hdb in Hloans.
        apply (f_equal (@length Loan.t)) in Hloans.
        rewrite length_app in Hloans. cbn in Hloans. lia.
      * intro H. injection H as <-. reflexivity.
    + intro H. injection H as <-. cbn. repeat split; reflexivity.
  - destruct (loan_created orm laws _ _ _ _ Hcreate)
      as (Hcust & Hloans & Hcid & Hten & Hpaid & Hstart & Hend).
    cbn in Hcid, Hten, Hpaid, Hstart, Hend.
    split; [exact Hcust|]. cbn.
    split; [reflexivity|]. exists l.
    destruct (Customer_objects_get_id db _ _ Hget) as [_ Hid].
    repeat split; try assumption; try congruence.
    unfold Loan.repayments_left. rewrite Hpaid, Z.sub_0_r. reflexivity.
Qed.

(** X9: [CreateLoanView.post] does what [CheckEligibilityView.post] announces
    for the same request on the same database: the same error status or
    engine exception; on approval a 201 carrying the announced
    installment (unless the insert itself fails); on refusal a 200 with
    the announced installment and the database untouched. *)
Theorem CreateLoanView_agrees_with_CheckEligibilityView
    (db : Database) (today : date) (request : option LoanRequest.t) :
  match CheckEligibilityView_post db today request,
        CreateLoanView_post db today request with
  | ErrorResponse status, (db', out) =>
    out = ErrorResponse status /\ db' = db
  | Unhandled e, (db', out) => out = Unhandled e /\ db' = db
  | Response status quote, (db', out) =>
    status = HTTP_200_OK
    /\ if EligibilityData.approval quote then
         (out = Unhandled OrmError /\ db' = db)
         \/ exists loan_id : Z,
              out = Response HTTP_201_CREATED
                      (CreateLoanData.mk (Some loan_id)
                         (EligibilityData.customer_id quote) true
                         "Loan approved successfully."%string
                         (EligibilityData.monthly_installment quote))
       else
         out = Response HTTP_200_OK
                 (CreateLoanData.mk None
                    (EligibilityData.customer_id quote) false
                    "Loan not approved based on credit score and eligibility criteria."%string
                    (EligibilityData.monthly_installment quote))
         /\ db' = db
  end.
Proof.
  unfold CheckEligibilityView_post, CreateLoanView_post.
  destruct request as [data|]; [|split; reflexivity].
  destruct (Customer_objects_get db (LoanRequest.customer_id data));
    [|split; reflexivity].
  destruct (check_loan_eligibility _ _ _ _ _ _)
    as [[[[[customer_obj approval] interest_rate] corrected_rate]
           monthly_installment]|e];
    [|split; reflexivity].
  destruct approval; cbn [negb EligibilityData.approval
                          EligibilityData.customer_id
                          EligibilityData.monthly_installment].
  - destruct (Loan_objects_create _ _) as [[db1 l]|].
    + split; [reflexivity|]. right. exists (Loan.id l). reflexivity.
    + split; [reflexivity|]. left. split; reflexivity.
  - split; [reflexivity|]. split; reflexivity.
Qed.

(** X10: a loan stored by [CreateLoanView.post] has no end date, so the engine
    never selects it as current: whatever the request and its outcome,
    the sum of current installments and the sum of current loan amounts
    of every customer are afterwards what they were, at every date; and
    the decision for any other customer id is unchanged. *)
Theorem CreateLoanView_leaves_current_sums
    (db db' : Database) (today : date) (request : option LoanRequest.t)
    (out : outcome CreateLoanData.t) :
  CreateLoanView_post db today request = (db', out) ->
  (forall (today' : date) (c : Customer.t),
     total_current_emis db' today' c = total_current_emis db today' c
     /\ total_current_loan_amount today' (Customer_loans db' c)
        = total_current_loan_amount today' (Customer_loans db c))
  /\ (forall (today' : date) (customer_id : Z) (loan_amount interest_rate : Q)
             (tenure : Z),
        (forall data, request = Some data ->
                      LoanRequest.customer_id data <> customer_id) ->
        check_loan_eligibility db' today' customer_id loan_amount
                               interest_rate tenure
        = check_loan_eligibility db today' customer_id loan_amount
                                 interest_rate tenure).
Proof.
  intro Hpost.
  destruct (CreateLoanView_post_inv db db' today request out Hpost)
    as [Hsame | (data & customer & l & rate & corrected & emi
                 & Hreq & Hget & Hcheck & Hcreate & Hout)].
  { subst db'. split; [intros; split; reflexivity | intros; reflexivity]. }
  destruct (loan_created orm laws _ _ _ _ Hcreate)
    as (Hcust & Hloans & Hcid & _ & _ & _ & Hend).
  cbn in Hcid, Hend.
  destruct (Customer_objects_get_id db _ _ Hget) as [_ Hid].
  split.
  - intros today' c. unfold total_current_emis, total_current_loan_amount.
    rewrite (current_loans_snoc_open_ended db db' today' l c Hloans Hend).
    split; reflexivity.
  - intros today' customer_id loan_amount interest_rate tenure Hother.
    specialize (Hother data Hreq).
    unfold check_loan_eligibility, Customer_objects_get.
    rewrite Hcust.
    destruct (find _ (customers db)) as [c|] eqn:Hfind; [|reflexivity].
    assert (Hc : Customer.id c = customer_id).
    { apply find_some in Hfind. apply Z.eqb_eq, Hfind. }
    assert (Hloans_c : Customer_loans db' c = Customer_loans db c).
    { rewrite (Customer_loans_snoc db db' l c Hloans).
      replace (Loan.customer_id l =? Customer.id c) with false;
        [apply app_nil_r|].
      symmetry. apply Z.eqb_neq. congruence. }
    unfold total_current_emis, calculate_credit_score.
    rewrite Hloans_c. reflexivity.
Qed.

(** X11: [ViewLoansByCustomerView.get] answers 404 for an id with no customer
    row, and otherwise 200 with the items of the loan rows of that
    customer and of no other, one item per row and in the order of the
    table, whether the loan is closed, running or without end date; no
    item reports a negative number of repayments left. *)
Theorem ViewLoansByCustomerView_lists_every_loan
    (db : Database) (customer_id : Z) :
  (Customer_objects_get db customer_id = None ->
   ViewLoansByCustomerView_get db customer_id
   = ErrorResponse HTTP_404_NOT_FOUND)
  /\ (forall c : Customer.t,
        Customer_objects_get db customer_id = Some c ->
        let rows :=
          filter (fun l => Loan.customer_id l =? customer_id) (loans db) in
        ViewLoansByCustomerView_get db customer_id
        = Response HTTP_200_OK (map LoanListItemSerializer rows)
        /\ length (map LoanListItemSerializer rows) = length rows
        /\ Forall (fun item => 0 <= LoanListItem.repayments_left item)
                  (map LoanListItemSerializer rows)).
Proof.
  unfold ViewLoansByCustomerView_get. split.
  - intros ->. reflexivity.
  - intros c Hget. cbv zeta. rewrite Hget.
    destruct (Customer_objects_get_id db _ _ Hget) as [_ Hid].
    unfold Customer_loans. rewrite Hid.
    split; [reflexivity|]. split; [apply length_map|].
    rewrite Forall_map. apply Forall_forall. intros l _.
    cbn. unfold Loan.repayments_left. lia.
Qed.

(** X12: a loan just created shows up in the customer's list: after a 201 the
    list view answers with the items it gave before followed by one item
    for the new loan, under the id the 201 reported and with the whole
    tenure left to repay. *)
Theorem created_loan_is_listed
    (db db' : Database) (today : date) (data : LoanRequest.t)
    (created : CreateLoanData.t) (loan_id : Z)
    (items : list LoanListItem.t) :
  CreateLoanView_post db today (Some data)
  = (db', Response HTTP_201_CREATED created) ->
  CreateLoanData.loan_id created = Some loan_id ->
  ViewLoansByCustomerView_get db (LoanRequest.customer_id data)
  = Response HTTP_200_OK items ->
  exists item : LoanListItem.t,
    ViewLoansByCustomerView_get db' (LoanRequest.customer_id data)
    = Response HTTP_200_OK (items ++ [item])
    /\ LoanListItem.loan_id item = loan_id
    /\ LoanListItem.repayments_left item
       = Z.max 0 (LoanRequest.tenure data).
Proof.
  intros Hpost Hid Hview.
  destruct (CreateLoanView_post_inv db db' today _ _ Hpost)
    as [Hsame | (data' & customer & l & rate & corrected & emi
                 & Hreq & Hget & Hcheck & Hcreate & Hout)].
  - exfalso. subst db'. revert Hpost. unfold CreateLoanView_post.
    destruct (Customer_objects_get db (LoanRequest.customer_id data));
      [|discriminate].
    destruct (check_loan_eligibility _ _ _ _ _ _)
      as [[[[[customer_obj approval] interest_rate] corrected_rate]
             monthly_installment]|e]; [|discriminate].
    destruct approval; cbn [negb]; [|discriminate].
    destruct (Loan_objects_create _ _) as [[db1 l]|] eqn:Hcreate;
      [|discriminate].
    intro H. injection H as Hdb _.
    destruct (loan_created orm laws _ _ _ _ Hcreate) as (_ & Hloans & _).
    rewrite Hdb in Hloans. apply (f_equal (@length Loan.t)) in Hloans.
    rewrite length_app in Hloans. cbn in Hloans. lia.
  - injection Hreq as <-. injection Hout as ->. cbn in Hid.
    injection Hid as <-.
    destruct (loan_created orm laws _ _ _ _ Hcreate)
      as (Hcust & Hloans & Hcid & Hten & Hpaid & _).
    cbn in Hcid, Hten, Hpaid.
    destruct (Customer_objects_get_id db _ _ Hget) as [_ Hcustomer].
    revert Hview. unfold ViewLoansByCustomerView_get, Customer_objects_get.
    rewrite Hcust. fold (Customer_objects_get db (LoanRequest.customer_id data)).
    rewrite Hget. intro H. injection H as <-.
    exists (LoanListItemSerializer l).
    rewrite (Customer_loans_snoc db db' l customer Hloans).
    replace (Loan.customer_id l =? Customer.id customer) with true
      by (symmetry; apply Z.eqb_eq; exact Hcid).
    rewrite map_app. cbn [map].
    repeat split.
    cbn. unfold Loan.repayments_left. rewrite Hpaid, Hten, Z.sub_0_r.
    reflexivity.
Qed.

(** X13: [RegisterCustomerView.post] answers 201 with the limit computed from
    the income, a multiple of 100,000; the new row is then found under
    the id of the answer, which no customer had before, with that limit
    and income; every other id is looked up as before and no loan row
    changes.  Invalid data answers 400; if the insert fails the database
    is as it was. *)
Theorem RegisterCustomerView_stores_the_customer
    (db db' : Database) (request : option Registration.t)
    (out : outcome RegisterData.t) :
  RegisterCustomerView_post db request = (db', out) ->
  match out with
  | Response status body =>
    status = HTTP_201_CREATED
    /\ (exists data : Registration.t,
          request = Some data
          /\ RegisterData.monthly_income body
             = inject_Z (Registration.monthly_income data)
          /\ RegisterData.approved_limit body
             = inject_Z (calculate_approved_limit
                           (Registration.monthly_income data)))
    /\ (exists k : Z, RegisterData.approved_limit body = inject_Z (k * 100000))
    /\ loans db' = loans db
    /\ Customer_objects_get db (RegisterData.customer_id body) = None
    /\ (exists c : Customer.t,
          Customer_objects_get db' (RegisterData.customer_id body) = Some c
          /\ Customer.approved_limit c = RegisterData.approved_limit body
          /\ Customer.monthly_salary c = RegisterData.monthly_income body)
    /\ (forall customer_id : Z,
          customer_id <> RegisterData.customer_id body ->
          Customer_objects_get db' customer_id
          = Customer_objects_get db customer_id)
  | ErrorResponse status =>
    status = HTTP_400_BAD_REQUEST /\ request = None /\ db' = db
  | Unhandled _ => db' = db
  end.
Proof.
  unfold RegisterCustomerView_post.
  destruct request as [data|];
    [|intro H; injection H as <- <-; repeat split; reflexivity].
  destruct (Customer_objects_create _ _) as [[db1 c]|] eqn:Hcreate;
    [|intro H; injection H as <- <-; reflexivity].
  intro H. injection H as <- <-.
  destruct (customer_created orm laws _ _ _ _ Hcreate)
    as (Hcust & Hloans & Hfresh & Hsalary & Hlimit).
  cbn in Hsalary, Hlimit. cbn [RegisterData.customer_id
    RegisterData.monthly_income RegisterData.approved_limit].
  split; [reflexivity|].
  split; [exists data; repeat split; reflexivity|].
  split; [eexists; unfold calculate_approved_limit; reflexivity|].
  split; [exact Hloans|]. split; [exact Hfresh|]. split.
  - exists c. unfold Customer_objects_get in *.
    rewrite Hcust, find_snoc, Hfresh, Z.eqb_refl.
    repeat split; assumption.
  - intros customer_id Hne. unfold Customer_objects_get.
    rewrite Hcust, find_snoc.
    destruct (find _ (customers db)); [reflexivity|].
    replace (Customer.id c =? customer_id) with false; [reflexivity|].
    symmetry. apply Z.eqb_neq. congruence.
Qed.

(** X14: register, then ask: in a database whose loans all point at stored
    customers, the first eligibility check of a customer registered with
    a non-negative income is never refused: for any amount, rate and
    tenure it answers 200 with an approval, at the requested rate when it
    is above 12 and at 12 otherwise, whenever the installment at that
    rate is computed; when that computation raises, the error is the
    request's outcome. *)
Theorem registered_customer_is_approved
    (db db' : Database) (today : date) (data : Registration.t)
    (body : RegisterData.t) (loan_amount interest_rate : Q) (tenure : Z) :
  foreign_keys_hold db ->
  RegisterCustomerView_post db (Some data)
  = (db', Response HTTP_201_CREATED body) ->
  0 <= Registration.monthly_income data ->
  let corrected_rate :=
    if Py.Qlt_bool 12 interest_rate then interest_rate else 12%Q in
  CheckEligibilityView_post db' today
    (Some (LoanRequest.mk (RegisterData.customer_id body) loan_amount
                          interest_rate tenure))
  = match calculate_monthly_installment loan_amount corrected_rate tenure with
    | Py.Ok monthly_installment =>
      Response HTTP_200_OK
        (EligibilityData.mk (RegisterData.customer_id body) true
           interest_rate corrected_rate tenure monthly_installment)
    | Py.Raise e => Unhandled (EngineError e)
    end.
Proof.
  intros Hfk Hpost Hincome.
  revert Hpost. unfold RegisterCustomerView_post.
  destruct (Customer_objects_create _ _) as [[db1 c]|] eqn:Hcreate;
    [|discriminate].
  intro H. injection H as <- <-. cbn [RegisterData.customer_id].
  destruct (customer_created orm laws _ _ _ _ Hcreate)
    as (Hcust & Hloans & Hfresh & Hsalary & Hlimit).
  cbn in Hsalary, Hlimit.
  assert (Hget : Customer_objects_get db1 (Customer.id c) = Some c).
  { unfold Customer_objects_get in *.
    rewrite Hcust, find_snoc, Hfresh, Z.eqb_refl. reflexivity. }
  assert (Hnone : Customer_loans db1 c = []).
  { unfold Customer_loans. rewrite Hloans.
    destruct (filter _ (loans db)) as [| l ls] eqn:Ef; [reflexivity|].
    exfalso. assert (Hl : In l (l :: ls)) by (left; reflexivity).
    rewrite <- Ef in Hl. apply filter_In in Hl. destruct Hl as [Hin Hid].
    apply Z.eqb_eq in Hid.
    destruct (Hfk l Hin) as (c0 & Hc0 & Hid0).
    unfold Customer_objects_get in Hfresh.
    apply (find_none _ _ Hfresh) in Hc0. apply Z.eqb_neq in Hc0.
    congruence. }
  assert (Hwf : Customer_wf c).
  { unfold Customer_wf. rewrite Hlimit.
    pose proof (calculate_approved_limit_le 0 _ Hincome) as H0.
    change (calculate_approved_limit 0) with 0 in H0.
    unfold Qle. cbn [Qnum Qden inject_Z]. lia. }
  assert (Hburden :
    (total_current_emis db1 today c <= (1 # 2) * Customer.monthly_salary c)%Q).
  { unfold total_current_emis. rewrite Hnone, Hsalary.
    change (Py.sum (map Loan.monthly_repayment (filter_end_date_gte today [])))
      with 0%Q.
    unfold Qle. cbn [Qnum Qden inject_Z Qmult]. lia. }
  unfold CheckEligibilityView_post. cbn [LoanRequest.customer_id
    LoanRequest.loan_amount LoanRequest.interest_rate LoanRequest.tenure].
  rewrite Hget.
  rewrite (check_loan_eligibility_scored _ _ _ _ _ _ _ Hget Hburden).
  unfold calculate_credit_score. rewrite Hnone.
  rewrite (new_customer_scores_50 today c Hwf). cbv zeta.
  change (50 <? 50) with false. change ((30 <? 50) && (50 <=? 50)) with true.
  cbv beta iota.
  destruct (Py.Qlt_bool 12 interest_rate);
    destruct (calculate_monthly_installment _ _ _); reflexivity.
Qed.

End WithOrm.

(** ** The ORM of the closed examples *)

Lemma next_id_above (ids : list Z) (i : Z) : In i ids -> i < next_id ids.
Proof.
  unfold next_id. induction ids as [| j js IH]; cbn; [contradiction|].
  intros [-> | Hin]; [lia|]. specialize (IH Hin). lia.
Qed.

Lemma exact_orm_laws : Orm_laws exact_orm.
Proof.
  split.
  - intros db db' f l H. cbn in H. injection H as <- <-. cbn.
    repeat split; reflexivity.
  - intros db db' f c H. cbn in H. injection H as <- <-. cbn.
    repeat split; try reflexivity.
    unfold Customer_objects_get.
    destruct (find _ (customers db)) as [c0|] eqn:Hfind; [|reflexivity].
    exfalso. apply find_some in Hfind. destruct Hfind as [Hin Hid].
    apply Z.eqb_eq in Hid.
    pose proof (next_id_above (map Customer.id (customers db))
                  (Customer.id c0) (in_map _ _ _ Hin)) as Hlt.
    lia.
Qed.

(** ** Closed examples for the request layer *)

Lemma CreateLoanView_stores_witness :
  exists l : Loan.t,
    loans (fst (CreateLoanView_post Sample.db_new Sample.today
                  (Some MoreSamples.request)))
    = loans Sample.db_new ++ [l]
    /\ Loan.end_date l = None.
Proof.
  pose proof (CreateLoanView_stores_only_approved_loans exact_orm_laws
                Sample.db_new _ Sample.today (Some MoreSamples.request) _
                (surjective_pairing _)) as [_ H].
  change (snd (CreateLoanView_post Sample.db_new Sample.today
                 (Some MoreSamples.request)))
    with (Response HTTP_201_CREATED
            (CreateLoanData.mk (Some 1) 1 true
               "Loan approved successfully."%string (969733 # 100))) in H.
  cbn [CreateLoanData.loan_approved] in H.
  destruct H as (_ & l & Hloans & _ & _ & _ & Hend & _).
  exists l. split; assumption.
Defined.

Lemma CreateLoanView_leaves_current_sums_witness :
  total_current_emis
    (fst (CreateLoanView_post Sample.db_new Sample.today
            (Some MoreSamples.request)))
    Sample.today Sample.john
  = total_current_emis Sample.db_new Sample.today Sample.john.
Proof.
  exact (proj1 (proj1 (CreateLoanView_leaves_current_sums exact_orm_laws
                         Sample.db_new _ Sample.today
                         (Some MoreSamples.request) _
                         (surjective_pairing _))
                      Sample.today Sample.john)).
Defined.

Lemma created_loan_is_listed_witness :
  exists item : LoanListItem.t,
    ViewLoansByCustomerView_get
      (fst (CreateLoanView_post Sample.db_new Sample.today
              (Some MoreSamples.request))) 1
    = Response HTTP_200_OK ([] ++ [item])
    /\ LoanListItem.loan_id item = 1
    /\ LoanListItem.repayments_left item = Z.max 0 24.
Proof.
  apply (created_loan_is_listed exact_orm_laws
           Sample.db_new _ Sample.today MoreSamples.request
           (CreateLoanData.mk (Some 1) 1 true
              "Loan approved successfully."%string (969733 # 100))
           1 []);
    reflexivity.
Defined.

Lemma RegisterCustomerView_witness :
  exists c : Customer.t,
    Customer_objects_get
      (fst (RegisterCustomerView_post Sample.db_new (Some MoreSamples.alice)))
      2
    = Some c
    /\ Customer.approved_limit c = inject_Z 2200000.
Proof.
  pose proof (RegisterCustomerView_stores_the_customer exact_orm_laws
                Sample.db_new _ (Some MoreSamples.alice) _
                (surjective_pairing _)) as H.
  change (snd (RegisterCustomerView_post Sample.db_new
                 (Some MoreSamples.alice)))
    with (Response HTTP_201_CREATED
            (RegisterData.mk 2 "Alice Wonder"%string 28 (inject_Z 60000)
               (inject_Z 2200000) 1234567890)) in H.
  cbn [RegisterData.customer_id RegisterData.approved_limit
       RegisterData.monthly_income] in H.
  destruct H as (_ & _ & _ & _ & _ & (c & Hget & Hlimit & _) & _).
  exists c. split; assumption.
Defined.

Lemma registered_customer_is_approved_witness :
  CheckEligibilityView_post
    (fst (RegisterCustomerView_post Sample.db_new (Some MoreSamples.alice)))
    Sample.today (Some (LoanRequest.mk 2 200000 5 24))
  = Response HTTP_200_OK
      (EligibilityData.mk 2 true 5 12 24 (941469 # 100)).
Proof.
  exact (registered_customer_is_approved exact_orm_laws
           Sample.db_new _ Sample.today MoreSamples.alice
           (RegisterData.mk 2 "Alice Wonder"%string 28 (inject_Z 60000)
              (inject_Z 2200000) 1234567890)
           200000 5 24
           ltac:(intros l []) ltac:(reflexivity) ltac:(cbn; lia)).
Defined.

(** ** A tenure of zero *)

Lemma installment_zero_tenure (principal annual_rate : Q) :
  calculate_monthly_installment principal annual_rate 0
  = Py.Raise Py.ZeroDivisionError.
Proof.
  unfold calculate_monthly_installment.
  destruct (Qeq_bool annual_rate 0).
  - apply truediv_zero. reflexivity.
  - rewrite pow_ok by (left; lia). cbn [Py.bind].
    rewrite truediv_zero by reflexivity. reflexivity.
Qed.

(** X15: nothing checks the tenure before the installment is computed.
    With tenure 0 the engine raises [ZeroDivisionError] for every stored
    customer, in the burden branch and in every tier alike, and both
    views let it escape with the database untouched; only an unknown id
    is answered, as not found. *)
Theorem zero_tenure_raises_for_stored_customers
    {orm : Orm} (db : Database) (today : date) (customer_id : Z)
    (loan_amount interest_rate : Q) :
  let request :=
    Some (LoanRequest.mk customer_id loan_amount interest_rate 0) in
  (forall c : Customer.t,
     Customer_objects_get db customer_id = Some c ->
     check_loan_eligibility db today customer_id loan_amount interest_rate 0
     = Py.Raise Py.ZeroDivisionError
     /\ CheckEligibilityView_post db today request
        = Unhandled (EngineError Py.ZeroDivisionError)
     /\ CreateLoanView_post db today request
        = (db, Unhandled (EngineError Py.ZeroDivisionError)))
  /\ (Customer_objects_get db customer_id = None ->
      check_loan_eligibility db today customer_id loan_amount interest_rate 0
      = Py.Ok (None, false, interest_rate, interest_rate, 0%Q)
      /\ CheckEligibilityView_post db today request
         = ErrorResponse HTTP_404_NOT_FOUND
      /\ CreateLoanView_post db today request
         = (db, ErrorResponse HTTP_404_NOT_FOUND)).
Proof.
  intro request. split.
  - intros c Hget.
    assert (Hraise :
      check_loan_eligibility db today customer_id loan_amount interest_rate 0
      = Py.Raise Py.ZeroDivisionError).
    { unfold check_loan_eligibility. rewrite Hget.
      destruct (Py.Qlt_bool ((1 # 2) * _) _).
      - rewrite installment_zero_tenure. reflexivity.
      - destruct (if 50 <? _ then _ else _) as [a r].
        rewrite installment_zero_tenure. reflexivity. }
    split; [exact Hraise|].
    unfold CheckEligibilityView_post, CreateLoanView_post, request.
    cbn [LoanRequest.customer_id LoanRequest.loan_amount
         LoanRequest.interest_rate LoanRequest.tenure].
    rewrite Hget, Hraise. split; reflexivity.
  - intro Hget.
    unfold CheckEligibilityView_post, CreateLoanView_post, request,
      check_loan_eligibility.
    cbn [LoanRequest.customer_id LoanRequest.loan_amount
         LoanRequest.interest_rate LoanRequest.tenure].
    rewrite Hget. repeat split; reflexivity.
Qed.

(** ** Properties over the arithmetic of floats *)

(** The exact rationals satisfy the laws. *)
Lemma ExactArith_laws :
  Generic.ArithLaws Generic.ExactArith Generic.ExactLibrary.
Proof.
  assert (H53 : 2 ^ 53 = 9007199254740992) by reflexivity.
  constructor; cbn.
  - reflexivity.
  - intro x. unfold Py.pow. rewrite andb_false_r. reflexivity.
  - reflexivity.
  - exists (inject_Z 0). split; reflexivity.
  - intros n t Hn H. injection H as <-.
    destruct (Qeq_bool (inject_Z n) (inject_Z 0)) eqn:E; [|reflexivity].
    apply Qeq_bool_iff in E. unfold Qeq in E. cbn in E. lia.
  - intros a b _ _. destruct (Z.ltb_spec a b).
    + apply Qlt_bool_iff. rewrite <- Zlt_Qlt. assumption.
    + apply Qlt_bool_false_iff. rewrite <- Zle_Qle. assumption.
  - intros q Hq. apply Qlt_bool_false_iff. exact Hq.
  - intros p e r Hp He. destruct (Z.eqb_spec e 0) as [-> | _]; [lia|].
    intro H. injection H as <-. apply Qle_bool_iff.
    apply Qle_shift_div_l.
    + unfold Qlt. cbn. lia.
    + unfold Qle. cbn. lia.
  - intros x k Hk Hx. apply Qle_bool_iff. apply Qle_bool_iff in Hx.
    apply Qmult_le_0_compat; [exact Hx|]. unfold Qle. cbn. lia.
  - intros x a b _ _ _ Hx. apply Qle_bool_iff. apply Qle_bool_iff in Hx.
    rewrite inject_Z_plus. lra.
  - intros x a z _ Hx H. injection H as <-. apply Qle_bool_iff in Hx.
    apply int_le in Hx. unfold Py.int in Hx at 1. cbn in Hx.
    rewrite Z.quot_1_r in Hx. exact Hx.
Qed.

(** At the exact rationals the functions of [Generic] are the ones of the
    first part. *)
Lemma Generic_exact_installment (principal annual_rate : Q) (tenure : Z) :
  Generic.calculate_monthly_installment
    (A := Generic.ExactArith) (L := Generic.ExactLibrary)
    principal annual_rate tenure
  = calculate_monthly_installment principal annual_rate tenure.
Proof. reflexivity. Qed.

Lemma int_inject_Z (z : Z) : Py.int (inject_Z z) = z.
Proof. unfold Py.int. cbn. apply Z.quot_1_r. Qed.

Lemma Generic_exact_score (today : date) (c : Customer.t) (ls : list Loan.t) :
  Generic.credit_score_of
    (A := Generic.ExactArith) (L := Generic.ExactLibrary) today c ls
  = Py.Ok (credit_score_of today c ls).
Proof.
  unfold Generic.credit_score_of, credit_score_of, Generic.over_limit.
  change (Generic.fltb (Generic.of_decimal (Customer.approved_limit c))
            (Generic.total_current_loan_amount today ls))
    with (Py.Qlt_bool (Customer.approved_limit c)
            (Py.sum (map (fun l => Loan.loan_amount l)
                         (filter_end_date_gte today ls)))).
  unfold total_current_loan_amount.
  destruct (Py.Qlt_bool _ _); [reflexivity|].
  destruct (Z.of_nat (length ls) =? 0); [reflexivity|].
  unfold Generic.total_score, Generic.on_time_score, Generic.volume_score,
    on_time_score, on_time_ratio, volume_ratio, total_loan_volume.
  change (Generic.fltb (Generic.lit 0)
            (Generic.of_decimal (Customer.approved_limit c)))
    with (Py.Qlt_bool 0 (Customer.approved_limit c)).
  assert (Hvol :
    (volume_ratio <-
       (if Py.Qlt_bool 0 (Customer.approved_limit c)
        then Generic.truediv (A := Generic.ExactArith)
               (Generic.fsum (map (fun l =>
                  Generic.of_decimal (Loan.loan_amount l)) ls))
               (Generic.of_decimal (Customer.approved_limit c))
        else Py.Ok (Generic.lit 1)) ;;
     Py.Ok (if Generic.fleb volume_ratio Generic.half then 25
            else if Generic.fleb volume_ratio (Generic.lit 1) then 20
            else if Generic.fleb volume_ratio (Generic.lit 2) then 10
            else 5))
    = Py.Ok (volume_score
               (if Py.Qlt_bool 0 (Customer.approved_limit c)
                then (Py.sum (map Loan.loan_amount ls)
                      / Customer.approved_limit c)%Q
                else 1%Q))).
  { destruct (Py.Qlt_bool 0 (Customer.approved_limit c)) eqn:Hpos;
      [|reflexivity].
    unfold Generic.truediv.
    change (Generic.feqb (Generic.of_decimal (Customer.approved_limit c))
              (Generic.lit 0))
      with (Qeq_bool (Customer.approved_limit c) 0).
    replace (Qeq_bool (Customer.approved_limit c) 0) with false;
      [reflexivity|].
    symmetry. apply not_true_iff_false. intro E. apply Qeq_bool_iff in E.
    apply Qlt_bool_iff in Hpos. rewrite E in Hpos.
    apply Qlt_irrefl in Hpos. exact Hpos. }
  rewrite Hvol. clear Hvol.
  set (v := volume_score _).
  set (lc := loan_count_score _).
  set (ac := activity_score _).
  destruct (Z.ltb_spec 0 (Py.sumZ (map Loan.tenure ls))) as [Hpos | Hle].
  - change (Generic.int_truediv (Py.sumZ (map Loan.emis_paid_on_time ls))
              (Py.sumZ (map Loan.tenure ls)))
      with (if Py.sumZ (map Loan.tenure ls) =? 0
            then Py.Raise Py.ZeroDivisionError
            else Py.Ok (inject_Z (Py.sumZ (map Loan.emis_paid_on_time ls))
                        / inject_Z (Py.sumZ (map Loan.tenure ls)))%Q).
    replace (Py.sumZ (map Loan.tenure ls) =? 0) with false
      by (symmetry; apply Z.eqb_neq; lia).
    reflexivity.
  - cbn [Py.bind Generic.add_int Generic.int_of].
    do 2 f_equal.
    rewrite <- (int_inject_Z (0 * 35 + lc + ac + v)).
    rewrite !inject_Z_plus. reflexivity.
Qed.

Lemma Generic_exact_eligibility
    (db : Database) (today : date) (customer_id : Z)
    (loan_amount interest_rate : Q) (tenure : Z) :
  Generic.check_loan_eligibility
    (A := Generic.ExactArith) (L := Generic.ExactLibrary)
    db today customer_id loan_amount interest_rate tenure
  = check_loan_eligibility db today customer_id loan_amount interest_rate
                           tenure.
Proof.
  unfold Generic.check_loan_eligibility, check_loan_eligibility.
  destruct (Customer_objects_get db customer_id) as [c|]; [|reflexivity].
  change (Generic.over_burdened db today c)
    with (Py.Qlt_bool ((1 # 2) * Customer.monthly_salary c)
                      (total_current_emis db today c)).
  destruct (Py.Qlt_bool _ _); [reflexivity|].
  unfold Generic.calculate_credit_score. rewrite Generic_exact_score.
  reflexivity.
Qed.

Section GenericEngine.

Context {A : Generic.Arith} {L : Generic.Library A}
        (laws : Generic.ArithLaws A L).



Lemma Generic_zero_history_scores_50 (today : date) (c : Customer.t) :
  (0 <= Customer.approved_limit c)%Q ->
  Generic.credit_score_of today c [] = Py.Ok 50.
Proof.
  intro Hlimit. unfold Generic.credit_score_of, Generic.over_limit,
    Generic.total_current_loan_amount.
  cbn [filter_end_date_gte filter map].
  rewrite (Generic.fsum_nil A L laws).
  rewrite (Generic.of_decimal_nonneg A L laws _ Hlimit). reflexivity.
Qed.

(** C2, amended: for a stored customer who passes the burden test as the
    engine evaluates it, and whose score is computed, the decision
    follows the tiers in order on that score; [decided rate approval
    corrected] says that the call with requested rate [rate] returns that
    approval and corrected rate with the installment computed at the
    corrected rate when that computation returns, and raises its error
    otherwise.  Last conjunct: a customer with no loan and a
    non-negative approved limit scores 50 and, asking for 5%, is decided
    as approved at 12. *)
Theorem C2_tier_policy_as_computed
    (db : Database) (today : date) (customer_id : Z) (c : Customer.t)
    (loan_amount interest_rate : Generic.float) (tenure : Z) :
  Customer_objects_get db customer_id = Some c ->
  Generic.over_burdened db today c = false ->
  let decided (rate : Generic.float) (approval : bool)
              (corrected_rate : Generic.float) :=
    Generic.check_loan_eligibility db today customer_id loan_amount rate
                                   tenure
    = (monthly_installment <-
         Generic.calculate_monthly_installment loan_amount corrected_rate
                                               tenure ;;
       Py.Ok (Some c, approval, rate, corrected_rate, monthly_installment)) in
  (forall score : Z,
     Generic.calculate_credit_score db today c = Py.Ok score ->
     (50 < score -> decided interest_rate true interest_rate)
     /\ (30 < score <= 50 ->
         Generic.fltb (Generic.lit 12) interest_rate = true ->
         decided interest_rate true interest_rate)
     /\ (30 < score <= 50 ->
         Generic.fltb (Generic.lit 12) interest_rate = false ->
         decided interest_rate true (Generic.lit 12))
     /\ (10 < score <= 30 ->
         Generic.fltb (Generic.lit 16) interest_rate = true ->
         decided interest_rate true interest_rate)
     /\ (10 < score <= 30 ->
         Generic.fltb (Generic.lit 16) interest_rate = false ->
         decided interest_rate true (Generic.lit 16))
     /\ (score <= 10 -> decided interest_rate false interest_rate))
  /\ (Customer_loans db c = [] -> (0 <= Customer.approved_limit c)%Q ->
      Generic.calculate_credit_score db today c = Py.Ok 50
      /\ decided (Generic.lit 5) true (Generic.lit 12)).
Proof.
  intros Hget Hburden decided.
  assert (Hstep : forall rate score,
    Generic.calculate_credit_score db today c = Py.Ok score ->
    Generic.check_loan_eligibility db today customer_id loan_amount rate
                                   tenure
    = (let '(approval, corrected_rate) := Generic.tier score rate in
       monthly_installment <-
         Generic.calculate_monthly_installment loan_amount corrected_rate
                                               tenure ;;
       Py.Ok (Some c, approval, rate, corrected_rate, monthly_installment))).
  { intros rate score Hscore. unfold Generic.check_loan_eligibility.
    rewrite Hget, Hburden, Hscore. reflexivity. }
  unfold decided. split.
  - intros score Hscore.
    repeat match goal with |- _ /\ _ => split end;
      intros; rewrite (Hstep _ _ Hscore); unfold Generic.tier.
    + settle_ltb 50 score. reflexivity.
    + settle_ltb 50 score. settle_ltb 30 score. settle_leb score 50.
      cbn [andb].
      match goal with H : Generic.fltb _ _ = _ |- _ => rewrite H end.
      reflexivity.
    + settle_ltb 50 score. settle_ltb 30 score. settle_leb score 50.
      cbn [andb].
      match goal with H : Generic.fltb _ _ = _ |- _ => rewrite H end.
      reflexivity.
    + settle_ltb 50 score. settle_ltb 30 score. settle_leb score 50.
      settle_ltb 10 score. settle_leb score 30. cbn [andb].
      match goal with H : Generic.fltb _ _ = _ |- _ => rewrite H end.
      reflexivity.
    + settle_ltb 50 score. settle_ltb 30 score. settle_leb score 50.
      settle_ltb 10 score. settle_leb score 30. cbn [andb].
      match goal with H : Generic.fltb _ _ = _ |- _ => rewrite H end.
      reflexivity.
    + settle_ltb 50 score. settle_ltb 30 score. settle_ltb 10 score.
      reflexivity.
  - intros Hnone Hlimit.
    assert (Hs : Generic.calculate_credit_score db today c = Py.Ok 50).
    { unfold Generic.calculate_credit_score. rewrite Hnone.
      apply Generic_zero_history_scores_50. exact Hlimit. }
    split; [exact Hs|]. rewrite (Hstep _ _ Hs). unfold Generic.tier.
    change (50 <? 50) with false.
    change ((30 <? 50) && (50 <=? 50)) with true. cbv iota.
    rewrite (Generic.lit_ltb A L laws 12 5) by (cbn; lia).
    reflexivity.
Qed.

(** The total of a well-formed history truncates to 15 at least: the
    on-time component is not negative and each band gives 5 or more. *)
Lemma Generic_total_at_least_15
    (today : date) (c : Customer.t) (ls : list Loan.t)
    (total : Generic.number) (z : Z) :
  Forall Loan_wf ls ->
  Generic.total_score today c ls = Py.Ok total ->
  Generic.int_of total = Py.Ok z ->
  15 <= z.
Proof.
  assert (H53 : 2 ^ 53 = 9007199254740992) by reflexivity.
  intros Hwf. unfold Generic.total_score, Generic.on_time_score.
  pose proof (loan_count_score_range (Z.of_nat (length ls))) as Hlc.
  pose proof (activity_score_range (current_year_loans today ls)) as Hac.
  set (lc := loan_count_score _) in *.
  set (ac := activity_score _) in *.
  assert (Hvol : forall v, Generic.volume_score c ls = Py.Ok v -> 5 <= v <= 25).
  { intro v. unfold Generic.volume_score.
    destruct (if Generic.fltb _ _ then _ else _) as [q|e];
      cbn [Py.bind]; [|discriminate].
    intro H. injection H as <-.
    repeat match goal with |- context [if ?b then _ else _] => destruct b end;
      lia. }
  destruct (Z.ltb_spec 0 (Py.sumZ (map Loan.tenure ls))) as [Hpos | _].
  - destruct (Generic.int_truediv _ _) as [r|e] eqn:Er;
      cbn [Py.bind]; [|discriminate].
    destruct (Generic.volume_score c ls) as [v|e]; cbn [Py.bind];
      [|discriminate].
    specialize (Hvol v eq_refl).
    intro H. injection H as <-. cbn [Generic.add_int Generic.int_of].
    assert (Hpaid : 0 <= Py.sumZ (map Loan.emis_paid_on_time ls)).
    { apply sumZ_nonneg. rewrite Forall_map.
      eapply Forall_impl; [|exact Hwf]. intros l (_ & _ & H). exact H. }
    pose proof (Generic.int_truediv_nonneg A L laws _ _ _ Hpaid Hpos Er) as H0.
    apply (Generic.fmul_nonneg A L laws _ 35) in H0; [|rewrite H53; lia].
    apply (Generic.fadd_lit_le A L laws _ 0 lc) in H0;
      [|lia | lia | rewrite H53; lia].
    apply (Generic.fadd_lit_le A L laws _ (0 + lc) ac) in H0;
      [|lia | lia | rewrite H53; lia].
    apply (Generic.fadd_lit_le A L laws _ (0 + lc + ac) v) in H0;
      [|lia | lia | rewrite H53; lia].
    intro Hz.
    apply (Generic.ftrunc_le A L laws _ _ z) in H0;
      [lia | rewrite H53; lia | exact Hz].
  - cbn [Py.bind].
    destruct (Generic.volume_score c ls) as [v|e]; cbn [Py.bind];
      [|discriminate].
    specialize (Hvol v eq_refl).
    intro H. injection H as <-. cbn [Generic.add_int Generic.int_of].
    intro H. injection H as <-. lia.
Qed.

Lemma Generic_score_range
    (today : date) (c : Customer.t) (ls : list Loan.t) (score : Z) :
  Forall Loan_wf ls ->
  Generic.credit_score_of today c ls = Py.Ok score ->
  0 <= score <= 100
  /\ (Generic.over_limit today c ls = true -> score = 0)
  /\ (Generic.over_limit today c ls = false -> 15 <= score).
Proof.
  intro Hwf. unfold Generic.credit_score_of.
  destruct (Generic.over_limit today c ls).
  - intro H. injection H as <-. repeat split; (lia || discriminate).
  - destruct (Z.of_nat (length ls) =? 0).
    + intro H. injection H as <-. repeat split; (lia || discriminate).
    + destruct (Generic.total_score today c ls) as [total|e] eqn:Et;
        cbn [Py.bind]; [|discriminate].
      destruct (Generic.int_of total) as [z|e] eqn:Ez;
        cbn [Py.bind]; [|discriminate].
      intro H. injection H as <-.
      pose proof (Generic_total_at_least_15 today c ls total z Hwf Et Ez).
      repeat split; (lia || discriminate).
Qed.


Lemma Generic_tier_approves (score : Z) (rate : Generic.float) :
  10 < score -> fst (Generic.tier score rate) = true.
Proof.
  intro H. unfold Generic.tier.
  destruct (Z.ltb_spec 50 score); [reflexivity|].
  destruct (Z.ltb_spec 30 score); destruct (Z.leb_spec score 50);
    cbn [andb]; try lia.
  - destruct (Generic.fltb _ _); reflexivity.
  - destruct (Z.ltb_spec 10 score); destruct (Z.leb_spec score 30);
      cbn [andb]; try lia.
    destruct (Generic.fltb _ _); reflexivity.
Qed.

(** X6: a stored customer with well-formed loans who passes the burden
    test is approved, in every decision the call returns, exactly when
    the override test fails, that is when the sum of the current loan
    amounts the engine computes is not above the approved limit: past
    the override the score never falls in the denial band. *)
Theorem approved_iff_within_limit
    (db : Database) (today : date) (customer_id : Z) (c : Customer.t)
    (loan_amount interest_rate : Generic.float) (tenure : Z)
    (found : option Customer.t) (approval : bool)
    (rate corrected_rate monthly_installment : Generic.float) :
  Customer_objects_get db customer_id = Some c ->
  Forall Loan_wf (Customer_loans db c) ->
  Generic.over_burdened db today c = false ->
  Generic.check_loan_eligibility db today customer_id loan_amount
                                 interest_rate tenure
  = Py.Ok (found, approval, rate, corrected_rate, monthly_installment) ->
  approval = negb (Generic.over_limit today c (Customer_loans db c)).
Proof.
  intros Hget Hwf Hburden. unfold Generic.check_loan_eligibility.
  rewrite Hget, Hburden.
  destruct (Generic.calculate_credit_score db today c) as [score|e] eqn:Es;
    cbn [Py.bind]; [|discriminate].
  destruct (Generic_score_range today c _ score Hwf Es) as (_ & Hov & Hin).
  destruct (Generic.over_limit today c (Customer_loans db c)).
  - rewrite (Hov eq_refl). cbn.
    destruct (Generic.calculate_monthly_installment _ _ _);
      cbn [Py.bind]; [|discriminate].
    intro H. injection H as _ <- _ _ _. reflexivity.
  - specialize (Hin eq_refl).
    pose proof (Generic_tier_approves score interest_rate ltac:(lia)) as Ht.
    destruct (Generic.tier score interest_rate) as [a r]. cbn in Ht.
    subst a.
    destruct (Generic.calculate_monthly_installment _ _ _);
      cbn [Py.bind]; [|discriminate].
    intro H. injection H as _ <- _ _ _. reflexivity.
Qed.

End GenericEngine.

(** ** Closed examples at the exact rationals *)


Lemma C2_tier_policy_witness :
  Generic.calculate_credit_score
    (A := Generic.ExactArith) (L := Generic.ExactLibrary)
    Sample.db_new Sample.today Sample.john = Py.Ok 50
  /\ Generic.check_loan_eligibility
       (A := Generic.ExactArith) (L := Generic.ExactLibrary)
       Sample.db_new Sample.today 1 100000%Q 5%Q 12
     = (monthly_installment <-
          Generic.calculate_monthly_installment
            (A := Generic.ExactArith) (L := Generic.ExactLibrary)
            100000%Q 12%Q 12 ;;
        Py.Ok (Some Sample.john, true, 5%Q, 12%Q, monthly_installment)).
Proof.
  assert (Hget : Customer_objects_get Sample.db_new 1 = Some Sample.john)
    by reflexivity.
  assert (Hburden :
    Generic.over_burdened (A := Generic.ExactArith)
      Sample.db_new Sample.today Sample.john = false) by reflexivity.
  pose proof (C2_tier_policy_as_computed (A := Generic.ExactArith)
                ExactArith_laws Sample.db_new Sample.today 1 Sample.john
                100000%Q 15%Q 12 Hget Hburden) as H.
  cbv zeta in H. destruct H as (_ & H).
  apply H.
  - reflexivity.
  - vm_compute. discriminate.
Defined.


Lemma approved_iff_within_limit_witness :
  Generic.check_loan_eligibility
    (A := Generic.ExactArith) (L := Generic.ExactLibrary)
    Sample.db_half_repaid Sample.today 1 100000%Q 10%Q 12
  = Py.Ok (Some Sample.john, true, 10%Q, 10%Q, 879159 # 100)
  /\ true = negb (Generic.over_limit (A := Generic.ExactArith) Sample.today
                    Sample.john
                    (Customer_loans Sample.db_half_repaid Sample.john)).
Proof.
  assert (H : Generic.check_loan_eligibility
                (A := Generic.ExactArith) (L := Generic.ExactLibrary)
                Sample.db_half_repaid Sample.today 1 100000%Q 10%Q 12
              = Py.Ok (Some Sample.john, true, 10%Q, 10%Q, 879159 # 100))
    by (vm_compute; reflexivity).
  split; [exact H|].
  refine (approved_iff_within_limit (A := Generic.ExactArith) ExactArith_laws
            Sample.db_half_repaid Sample.today 1 Sample.john
            100000%Q 10%Q 12 _ true _ _ _ _ _ _ H).
  - reflexivity.
  - constructor; [|constructor].
    unfold Loan_wf. cbn. repeat split; (lia || discriminate).
  - reflexivity.
Defined.

(** ** Evaluations in binary64 *)



(** The current loans of a customer, 100,000.10 and 200,000.20, sum to
    the approved limit of 300,000.30 exactly; the sum the engine forms
    in binary64 is above the limit it forms, and the override fires. *)
Lemma override_fires_at_a_tie :
  (total_current_loan_amount Sample.today
     (Customer_loans MoreSamples.db_at_limit MoreSamples.at_limit)
   <= Customer.approved_limit MoreSamples.at_limit)%Q
  /\ Generic.over_limit (A := Generic.Binary64) Sample.today
       MoreSamples.at_limit
       (Customer_loans MoreSamples.db_at_limit MoreSamples.at_limit)
     = true
  /\ (forall L : Generic.Library Generic.Binary64,
        Generic.calculate_credit_score (A := Generic.Binary64) (L := L)
          MoreSamples.db_at_limit Sample.today MoreSamples.at_limit
        = Py.Ok 0).
Proof.
  split; [vm_compute; discriminate|].
  assert (Hover : Generic.over_limit (A := Generic.Binary64) Sample.today
            MoreSamples.at_limit
            (Customer_loans MoreSamples.db_at_limit MoreSamples.at_limit)
          = true) by (vm_compute; reflexivity).
  split; [exact Hover|].
  intro L. unfold Generic.calculate_credit_score, Generic.credit_score_of.
  rewrite Hover. reflexivity.
Qed.
